(** * Medi_Sure backend: a shallow embedding of the drug-safety pipeline

    Python strings are modelled as [string] over ASCII; [str.lower],
    [str.upper], [str.strip], the [in] operator and [str.find] are written
    out below for that alphabet.  Python dicts whose iteration order is
    observable (the drug mapping, the fusion table) are association lists
    kept in insertion order.  Confidence values are rationals: the source
    only compares them, and comparison of floats is exact. *)

From Stdlib Require Import String Ascii List Bool Arith Lia QArith ZArith.
From Stdlib Require Import DecimalString.
Import ListNotations.
Open Scope nat_scope.
Open Scope string_scope.

(** ** Python string primitives *)

Module Py.

Definition lower_char (c : ascii) : ascii :=
  let n := nat_of_ascii c in
  if (65 <=? n)%nat && (n <=? 90)%nat then ascii_of_nat (n + 32)%nat else c.

Definition upper_char (c : ascii) : ascii :=
  let n := nat_of_ascii c in
  if (97 <=? n)%nat && (n <=? 122)%nat then ascii_of_nat (n - 32)%nat else c.

Fixpoint map_chars (f : ascii -> ascii) (s : string) : string :=
  match s with
  | EmptyString => EmptyString
  | String c r => String (f c) (map_chars f r)
  end.

(** [str.isascii]: every character is below 128.  On such strings the
    character functions of this module agree with Python's. *)
Fixpoint isascii (s : string) : bool :=
  match s with
  | EmptyString => true
  | String c r => Nat.ltb (nat_of_ascii c) 128 && isascii r
  end.

(** [str.lower] / [str.upper] *)
Definition lower (s : string) : string := map_chars lower_char s.
Definition upper (s : string) : string := map_chars upper_char s.

(** [str.isspace] on one ASCII character: \t \n \x0b \x0c \r,
    \x1c..\x1f and the space. *)
Definition is_space (c : ascii) : bool :=
  let n := nat_of_ascii c in
  ((9 <=? n)%nat && (n <=? 13)%nat) || ((28 <=? n)%nat && (n <=? 32)%nat).

Fixpoint lstrip (s : string) : string :=
  match s with
  | EmptyString => EmptyString
  | String c r => if is_space c then lstrip r else s
  end.

Fixpoint rstrip (s : string) : string :=
  match s with
  | EmptyString => EmptyString
  | String c r =>
      let r' := rstrip r in
      if is_space c && String.eqb r' EmptyString then EmptyString
      else String c r'
  end.

(** [str.strip()] *)
Definition strip (s : string) : string := rstrip (lstrip s).

Fixpoint prefixb (p s : string) : bool :=
  match p, s with
  | EmptyString, _ => true
  | String c p', String d s' => Ascii.eqb c d && prefixb p' s'
  | String _ _, EmptyString => false
  end.

(** [sub in s] *)
Fixpoint contains (sub s : string) : bool :=
  prefixb sub s ||
  match s with
  | EmptyString => false
  | String _ r => contains sub r
  end.

Fixpoint find_nat (sub s : string) : option nat :=
  if prefixb sub s then Some 0
  else match s with
       | EmptyString => None
       | String _ r => option_map S (find_nat sub r)
       end.

(** [s.find(sub)]: the first index, or -1 *)
Definition find (s sub : string) : Z :=
  match find_nat sub s with
  | Some n => Z.of_nat n
  | None => (-1)%Z
  end.

(** [sep.join(xs)] *)
Fixpoint join (sep : string) (xs : list string) : string :=
  match xs with
  | [] => EmptyString
  | [x] => x
  | x :: xs' => x ++ sep ++ join sep xs'
  end.

(** [s.replace(old, new)] for a non-empty [old]: the occurrences are
    replaced left to right without overlap.  Each step consumes at least
    one character, so [length s] steps suffice. *)
Fixpoint replace_fuel (fuel : nat) (old new s : string) : string :=
  match fuel with
  | O => s
  | S f =>
      match s with
      | EmptyString => EmptyString
      | String c r =>
          if prefixb old s
          then new ++ replace_fuel f old new
                        (substring (String.length old)
                           (String.length s - String.length old) s)
          else String c (replace_fuel f old new r)
      end
  end.

(** [s.replace("", new)] puts [new] around every character. *)
Fixpoint interleave (new s : string) : string :=
  match s with
  | EmptyString => new
  | String c r => new ++ String c (interleave new r)
  end.

(** [s.replace(old, new)] *)
Definition replace (s old new : string) : string :=
  match old with
  | EmptyString => interleave new s
  | _ => replace_fuel (String.length s) old new s
  end.

(** Cased characters: the ASCII letters. *)
Definition is_cased (c : ascii) : bool :=
  let n := nat_of_ascii c in
  ((65 <=? n)%nat && (n <=? 90)%nat) || ((97 <=? n)%nat && (n <=? 122)%nat).

Fixpoint title_aux (previous_is_cased : bool) (s : string) : string :=
  match s with
  | EmptyString => EmptyString
  | String c r =>
      if is_cased c
      then String (if previous_is_cased then lower_char c else upper_char c)
                  (title_aux true r)
      else String c (title_aux false r)
  end.

(** [str.title()] *)
Definition title (s : string) : string := title_aux false s.

End Py.

(** ** dataset_loader.py *)

Module DatasetLoader.

(** [drug_mapping]: the JSON object loaded from drug_mapping.json, in its
    insertion (iteration) order. *)
Definition drug_mapping := list (string * string).

Fixpoint dict_get (k : string) (m : drug_mapping) : option string :=
  match m with
  | [] => None
  | (k', v) :: m' => if String.eqb k k' then Some v else dict_get k m'
  end.

(** [DatasetLoader.get_drugbank_id] *)
Definition get_drugbank_id (m : drug_mapping) (drug_name : string) : string :=
  let drug_name_lower := Py.strip (Py.lower drug_name) in
  match dict_get drug_name_lower m with
  | Some v => v
  | None =>
      match List.find (fun kv => Py.contains drug_name_lower (fst kv)
                                 || Py.contains (fst kv) drug_name_lower) m with
      | Some (_, drugbank_id) => drugbank_id
      | None => "DB_UNKNOWN_" ++ Py.upper drug_name
      end
  end.

(** One row of the HODDI data frame.  A missing [severity] or
    [description] cell is [None] (the [.get] default applies). *)
Record hoddi_row := {
  drug1_drugbank_id : string;
  drug2_drugbank_id : string;
  severity : option string;
  description : option string
}.

Definition hoddi_data := list hoddi_row.

Definition row_matches (id1 id2 : string) (r : hoddi_row) : bool :=
  (String.eqb (drug1_drugbank_id r) id1 && String.eqb (drug2_drugbank_id r) id2)
  || (String.eqb (drug1_drugbank_id r) id2 && String.eqb (drug2_drugbank_id r) id1).

(** [DatasetLoader.check_drug_interaction] *)
Definition check_drug_interaction (m : drug_mapping) (h : hoddi_data)
    (drug1 drug2 : string) : string :=
  match h with
  | [] => "Dataset not available"
  | _ =>
      let drug1_id := get_drugbank_id m drug1 in
      let drug2_id := get_drugbank_id m drug2 in
      match List.filter (row_matches drug1_id drug2_id) h with
      | r :: _ =>
          let sev := match severity r with Some s => s | None => "Unknown" end in
          let desc := match description r with
                      | Some d => d | None => "Drug interaction detected" end in
          sev ++ ": " ++ desc
      | [] => "None"
      end
  end.

(** The dict built per drug by [get_interaction]. *)
Record drug_result := {
  drug : string;
  drugbank_id : string;
  interaction : string
}.

(** The inner loop over [enumerate(drugs)] for a fixed [i]. *)
Definition interactions_for (m : drug_mapping) (h : hoddi_data)
    (drugs : list string) (i : nat) (d : string) : list string :=
  List.fold_right
    (fun '(j, other_drug) acc =>
       if Nat.eqb i j then acc
       else let it := check_drug_interaction m h d other_drug in
            if String.eqb it "None" then acc
            else ("with " ++ other_drug ++ ": " ++ it) :: acc)
    [] (List.combine (List.seq 0 (length drugs)) drugs).

(** [DatasetLoader.get_interaction] *)
Definition get_interaction (m : drug_mapping) (h : hoddi_data)
    (drugs : list string) : list drug_result :=
  List.map
    (fun '(i, d) =>
       let interactions := interactions_for m h drugs i d in
       {| drug := Py.strip d;
          drugbank_id := get_drugbank_id m d;
          interaction := match interactions with
                         | [] => "None"
                         | _ => Py.join "; " interactions
                         end |})
    (List.combine (List.seq 0 (length drugs)) drugs).

End DatasetLoader.

(** ** main.py: risk aggregation *)

Module Risk.
Import DatasetLoader.

Record dosage_advice := {
  advice_drug : string;
  current_dosage : string;
  recommended_dosage : string;
  advice : string;
  risk_level : string
}.

(** [_extract_severity] *)
Definition extract_severity (interaction_text : string) : string :=
  let interaction_lower := Py.lower interaction_text in
  if Py.contains "severe" interaction_lower || Py.contains "major" interaction_lower
  then "High"
  else if Py.contains "moderate" interaction_lower
          || Py.contains "warning" interaction_lower
  then "Medium"
  else "Low".

(** The two counters of [_calculate_overall_risk], threaded through its
    two loops. *)
Definition count_interaction (counts : nat * nat) (result : drug_result)
    : nat * nat :=
  let '(high_risk_count, medium_risk_count) := counts in
  if negb (String.eqb (interaction result) "None") then
    let sev := extract_severity (interaction result) in
    if String.eqb sev "High" then (S high_risk_count, medium_risk_count)
    else if String.eqb sev "Medium" then (high_risk_count, S medium_risk_count)
    else counts
  else counts.

Definition count_advice (counts : nat * nat) (a : dosage_advice) : nat * nat :=
  let '(high_risk_count, medium_risk_count) := counts in
  if String.eqb (risk_level a) "High" then (S high_risk_count, medium_risk_count)
  else if String.eqb (risk_level a) "Medium" then (high_risk_count, S medium_risk_count)
  else counts.

(** [_calculate_overall_risk] *)
Definition calculate_overall_risk (interaction_results : list drug_result)
    (dosage_advice_list : list dosage_advice) : string :=
  let c1 := List.fold_left count_interaction interaction_results (0, 0) in
  let '(high_risk_count, medium_risk_count) :=
    List.fold_left count_advice dosage_advice_list c1 in
  if Nat.ltb 0 high_risk_count then "High"
  else if Nat.ltb 0 medium_risk_count then "Medium"
  else "Low".

(** The rule as the specification words it: any High signal gives High,
    else any Medium signal gives Medium, else Low. *)
Definition interaction_signals (kws : list string) (r : drug_result) : bool :=
  negb (String.eqb (interaction r) "None")
  && existsb (fun w => Py.contains w (Py.lower (interaction r))) kws.

Definition overall_risk_spec (interaction_results : list drug_result)
    (dosage_advice_list : list dosage_advice) : string :=
  if existsb (interaction_signals ["severe"; "major"]) interaction_results
     || existsb (fun a => String.eqb (risk_level a) "High") dosage_advice_list
  then "High"
  else if existsb (interaction_signals ["moderate"; "warning"]) interaction_results
     || existsb (fun a => String.eqb (risk_level a) "Medium") dosage_advice_list
  then "Medium"
  else "Low".

End Risk.

(** ** medical_nlp_extractor.py: fusion and attribute binding *)

Module Fusion.

(** An entry of a result's ['drugs'] list: a dict (its ['name'] and
    ['text'] values, when present) or any other object, seen through
    [str(drug)]. *)
Inductive drug_entry :=
| DrugDict (name : option string) (text : option string)
| DrugOther (repr : string).

(** The ['results'] dict of the pattern extractor. *)
Record pattern_data := {
  p_drugs : option (list string);
  p_dosages : option (list string);
  p_frequencies : option (list string);
  p_routes : option (list string);
  p_durations : option (list string)
}.

Definition empty_pattern_data : pattern_data :=
  {| p_drugs := None; p_dosages := None; p_frequencies := None;
     p_routes := None; p_durations := None |}.

(** One extractor result dict; [None] marks an absent key. *)
Record extraction_result := {
  r_method : option string;
  r_confidence : option Q;
  r_drugs : option (list drug_entry);
  r_drug_candidates : option (list string);
  r_results : option pattern_data
}.

(** A value of [all_drugs]. *)
Record stored := {
  s_name : string;
  s_confidence : Q;
  s_method : string
}.

Record DrugEntity := {
  de_name : string;
  de_dosage : string;
  de_frequency : string;
  de_route : string;
  de_duration : string;
  de_instructions : string;
  de_confidence : Q
}.

Definition get_or {A} (d : A) (o : option A) : A :=
  match o with Some a => a | None => d end.

Definition Qltb (x y : Q) : bool := negb (Qle_bool y x).

(** The dedup key [name.lower().strip()]. *)
Definition name_key (name : string) : string := Py.strip (Py.lower name).

(** Python dict read and write, insertion order kept. *)
Fixpoint dict_get {V} (k : string) (d : list (string * V)) : option V :=
  match d with
  | [] => None
  | (k', v) :: d' => if String.eqb k k' then Some v else dict_get k d'
  end.

Fixpoint dict_set {V} (k : string) (v : V) (d : list (string * V))
    : list (string * V) :=
  match d with
  | [] => [(k, v)]
  | (k', v') :: d' =>
      if String.eqb k k' then (k, v) :: d' else (k', v') :: dict_set k v d'
  end.

(** The update shared by the three branches:
    [if name_key not in all_drugs or all_drugs[name_key]['confidence'] < confidence]. *)
Definition record_drug (method : string) (confidence : Q)
    (all_drugs : list (string * stored)) (name : string) : list (string * stored) :=
  let key := name_key name in
  let st := {| s_name := name; s_confidence := confidence; s_method := method |} in
  match dict_get key all_drugs with
  | None => dict_set key st all_drugs
  | Some old => if Qltb (s_confidence old) confidence
                then dict_set key st all_drugs else all_drugs
  end.

Definition entry_name (d : drug_entry) : string :=
  match d with
  | DrugDict (Some n) _ => n
  | DrugDict None (Some t) => t
  | DrugDict None None => ""
  | DrugOther s => s
  end.

(** [if name and len(name) > 2] *)
Definition long_enough (name : string) : bool :=
  negb (String.eqb name "") && Nat.ltb 2 (String.length name).

(** The body of the loop [for result in results]. *)
Definition process_result (all_drugs : list (string * stored))
    (result : extraction_result) : list (string * stored) :=
  let method := get_or "Unknown" (r_method result) in
  let confidence := get_or 0%Q (r_confidence result) in
  match r_drugs result with
  | Some ds =>
      List.fold_left
        (fun acc d => let name := entry_name d in
                      if long_enough name then record_drug method confidence acc name
                      else acc) ds all_drugs
  | None =>
      match r_drug_candidates result with
      | Some cs => List.fold_left (record_drug method confidence) cs all_drugs
      | None =>
          match r_results result with
          | Some pd => List.fold_left (record_drug method confidence)
                         (get_or [] (p_drugs pd)) all_drugs
          | None => all_drugs
          end
      end
  end.

(** The body of the candidate loop of [_find_closest_match]; the state is
    [(closest_candidate, min_distance)], [None] standing for
    [float('inf')]. *)
Definition closest_step (text : string) (drug_pos : Z)
    (state : string * option Z) (candidate : string) : string * option Z :=
  let '(closest_candidate, min_distance) := state in
  let candidate_pos := Py.find (Py.lower text) (Py.lower candidate) in
  if negb (Z.eqb candidate_pos (-1)) then
    let distance := Z.abs (candidate_pos - drug_pos) in
    match min_distance with
    | None => (candidate, Some distance)
    | Some m => if Z.ltb distance m then (candidate, Some distance)
                else (closest_candidate, min_distance)
    end
  else (closest_candidate, min_distance).

(** [_find_closest_match] *)
Definition find_closest_match (drug_name : string) (candidates : list string)
    (text : string) : string :=
  match candidates with
  | [] => ""
  | c0 :: _ =>
      let drug_pos := Py.find (Py.lower text) (Py.lower drug_name) in
      if Z.eqb drug_pos (-1) then c0
      else fst (List.fold_left (closest_step text drug_pos) candidates ("", None))
  end.

(** [_combine_drug_extractions] *)
Definition combine_drug_extractions (results : list extraction_result)
    (text : string) : list DrugEntity :=
  let all_drugs := List.fold_left process_result results [] in
  let pattern_data :=
    match List.find (fun r => match r_method r with
                              | Some m => String.eqb m "Pattern Matching"
                              | None => false end) results with
    | Some r => get_or empty_pattern_data (r_results r)
    | None => empty_pattern_data
    end in
  List.map
    (fun '(_, drug_data) =>
       {| de_name := s_name drug_data;
          de_dosage := find_closest_match (s_name drug_data)
                         (get_or [] (p_dosages pattern_data)) text;
          de_frequency := find_closest_match (s_name drug_data)
                            (get_or [] (p_frequencies pattern_data)) text;
          de_route := find_closest_match (s_name drug_data)
                        (get_or [] (p_routes pattern_data)) text;
          de_duration := find_closest_match (s_name drug_data)
                           (get_or [] (p_durations pattern_data)) text;
          de_instructions := "";
          de_confidence := s_confidence drug_data |})
    all_drugs.

(** The detections [record_drug] is called on, in loop order, with the
    method and confidence of their result: the three branches flattened. *)
Definition result_detections (result : extraction_result)
    : list (string * Q * string) :=
  let method := get_or "Unknown" (r_method result) in
  let confidence := get_or 0%Q (r_confidence result) in
  let tag n := (n, confidence, method) in
  match r_drugs result with
  | Some ds => List.map tag (List.filter long_enough (List.map entry_name ds))
  | None =>
      match r_drug_candidates result with
      | Some cs => List.map tag cs
      | None =>
          match r_results result with
          | Some pd => List.map tag (get_or [] (p_drugs pd))
          | None => []
          end
      end
  end.

Definition detections (results : list extraction_result)
    : list (string * Q * string) :=
  List.flat_map result_detections results.

Definition det_name (d : string * Q * string) : string := fst (fst d).
Definition det_conf (d : string * Q * string) : Q := snd (fst d).
Definition det_method (d : string * Q * string) : string := snd d.

Definition stored_of (d : string * Q * string) : stored :=
  {| s_name := det_name d; s_confidence := det_conf d; s_method := det_method d |}.

Definition record_detection (all_drugs : list (string * stored))
    (d : string * Q * string) : list (string * stored) :=
  record_drug (det_method d) (det_conf d) all_drugs (det_name d).

(** What [record_drug] does to the entry of the detection's own key. *)
Definition keep_best (o : option stored) (d : string * Q * string) : option stored :=
  match o with
  | None => Some (stored_of d)
  | Some old => if Qltb (s_confidence old) (det_conf d) then Some (stored_of d)
                else Some old
  end.

(** An [all_drugs] entry sits under its own name's dedup key. *)
Definition key_consistent (p : string * stored) : Prop :=
  name_key (s_name (snd p)) = fst p.

End Fusion.

(** ** Python exceptions, as far as the request handlers observe them *)

Module Exc.

Inductive exn :=
| HTTPException (status_code : nat) (detail : string)
| RuntimeError (msg : string)
| OtherException (msg : string).

Definition nat_to_string (n : nat) : string :=
  NilEmpty.string_of_uint (Nat.to_uint n).

(** [str(e)]; Starlette renders an [HTTPException] as
    ["<status_code>: <detail>"]. *)
Definition str_exn (e : exn) : string :=
  match e with
  | HTTPException s d => nat_to_string s ++ ": " ++ d
  | RuntimeError m => m
  | OtherException m => m
  end.

(** A computation that returns a value or raises. *)
Inductive outcome (A : Type) :=
| Return (a : A)
| Raise (e : exn).
Arguments Return {A} a.
Arguments Raise {A} e.

Definition bind {A B} (m : outcome A) (k : A -> outcome B) : outcome B :=
  match m with
  | Return a => k a
  | Raise e => Raise e
  end.

Definition try_except {A} (body : outcome A) (handler : exn -> outcome A)
    : outcome A :=
  match body with
  | Return a => Return a
  | Raise e => handler e
  end.

End Exc.

Notation "x <- m ;; k" := (Exc.bind m (fun x => k))
  (at level 61, m at next level, right associativity).

(** ** ocr_reader.py: [EnhancedOCRReader.extract_text_from_image] *)

Module OCR.
Import Exc.

Record ocr_result := {
  o_text : string;
  o_confidence : Q;
  o_method : string
}.

Inductive engine := PaddleOCR | IBMWatson | Tesseract.

(** [_extract_with_watson]: Watson reports no score, the adapter sets 0.8;
    its engine call yields the stripped text or nothing. *)
Definition watson_adapter (watson_text : option string) : option ocr_result :=
  match watson_text with
  | Some t => Some {| o_text := t; o_confidence := 8 # 10; o_method := "IBM Watson" |}
  | None => None
  end.

(** [max(ocr_results, key=lambda x: x['confidence'])]: the first maximal one. *)
Fixpoint max_by_confidence (best : ocr_result) (rs : list ocr_result) : ocr_result :=
  match rs with
  | [] => best
  | r :: rs' => if Fusion.Qltb (o_confidence best) (o_confidence r)
                then max_by_confidence r rs' else max_by_confidence best rs'
  end.

Definition all_failed_msg : string :=
  "Failed to extract text using all available OCR methods".

(** The [except Exception as e: raise RuntimeError(...)] wrapper. *)
Definition wrap_failure {A} (body : outcome A) : outcome A :=
  try_except body (fun e => Raise (RuntimeError ("OCR extraction failed: " ++ str_exn e))).

(** The engine part of [extract_text_from_image], after preprocessing.
    [paddle], [watson] and [tesseract] are what the three engine adapters
    return on this image ([None]: unavailable, error or no text).  The
    first component lists the engines invoked, in order. *)
Definition extract_text_from_image (paddle : option ocr_result)
    (watson : option string) (tesseract : option ocr_result)
    : list engine * outcome ocr_result :=
  let finish (trace : list engine) (ocr_results : list ocr_result) :=
    (trace, wrap_failure
              match ocr_results with
              | [] => Raise (RuntimeError all_failed_msg)
              | r :: rs => Return (max_by_confidence r rs)
              end) in
  let after_paddle (ocr_results : list ocr_result) :=
    match watson_adapter watson with
    | Some w => ([PaddleOCR; IBMWatson], wrap_failure (Return w))
    | None =>
        match tesseract with
        | Some t =>
            if Fusion.Qltb (4 # 10) (o_confidence t)
            then ([PaddleOCR; IBMWatson; Tesseract], wrap_failure (Return t))
            else finish [PaddleOCR; IBMWatson; Tesseract] (ocr_results ++ [t])%list
        | None => finish [PaddleOCR; IBMWatson; Tesseract] ocr_results
        end
    end in
  match paddle with
  | Some p =>
      if Fusion.Qltb (6 # 10) (o_confidence p)
      then ([PaddleOCR], wrap_failure (Return p))
      else after_paddle [p]
  | None => after_paddle []
  end.

(** The cascade as the specification describes it: stages in priority
    order, each with its short-circuit threshold; a result above the
    threshold is returned at once, any other result joins the pool; with
    no short-circuit the pool's best is returned, an empty pool fails. *)
Record stage := {
  st_engine : engine;
  st_threshold : Q;
  st_result : option ocr_result
}.

Fixpoint cascade_spec (stages : list stage) (trace : list engine)
    (pool : list ocr_result) : list engine * outcome ocr_result :=
  match stages with
  | [] =>
      (trace, match pool with
              | [] => Raise (RuntimeError ("OCR extraction failed: " ++ all_failed_msg))
              | r :: rs => Return (max_by_confidence r rs)
              end)
  | s :: ss =>
      let trace' := (trace ++ [st_engine s])%list in
      match st_result s with
      | None => cascade_spec ss trace' pool
      | Some r =>
          if Fusion.Qltb (st_threshold s) (o_confidence r) then (trace', Return r)
          else cascade_spec ss trace' (pool ++ [r])%list
      end
  end.

(** The engines of [EnhancedOCRReader] with their thresholds; Watson's
    fixed 0.8 always clears its (zero) bar. *)
Definition reader_stages (paddle : option ocr_result) (watson : option string)
    (tesseract : option ocr_result) : list stage :=
  [ {| st_engine := PaddleOCR; st_threshold := 6 # 10; st_result := paddle |};
    {| st_engine := IBMWatson; st_threshold := 0; st_result := watson_adapter watson |};
    {| st_engine := Tesseract; st_threshold := 4 # 10; st_result := tesseract |} ].

End OCR.

(** ** main.py: the two analysis endpoints' error paths *)

Module Api.
Import Exc.

(** An entry of [extraction_result["drugs"]]. *)
Record extracted_drug := {
  x_name : string;
  x_dosage : string;
  x_frequency : string
}.

Section Endpoints.

(** The response models, and the steps after extraction (interaction
    lookup, dosage advice, alternatives, risk), are the handlers' own
    business; only whether they return or raise matters here. *)
Variable AnalysisResponse ImageAnalysisResponse : Type.

(** [drug_extractor.extract_drugs]: the value under ["drugs"], [None]
    when the key is absent. *)
Variable extract_drugs : string -> outcome (option (list extracted_drug)).

Variable analyse_drugs : nat -> list extracted_drug -> outcome AnalysisResponse.
Variable analyse_image_drugs :
  nat -> string -> list extracted_drug -> outcome ImageAnalysisResponse.

(** [analyze_prescription] *)
Definition analyze_prescription (age : nat) (prescription_text : string)
    : outcome AnalysisResponse :=
  try_except
    (extraction_result <- extract_drugs prescription_text ;;
     match Fusion.get_or [] extraction_result with
     | [] => Raise (HTTPException 400 "No drugs found in prescription text")
     | extracted_drugs => analyse_drugs age extracted_drugs
     end)
    (fun e => Raise (HTTPException 500 ("Analysis failed: " ++ str_exn e))).

(** [analyze_prescription_image]; [ocr_output] is what
    [ocr_reader.extract_text_from_image] returns or raises on the saved
    upload. *)
Definition analyze_prescription_image (age : nat) (content_type : option string)
    (ocr_output : outcome string) : outcome ImageAnalysisResponse :=
  try_except
    (if negb (match content_type with
              | Some ct => Py.prefixb "image/" ct
              | None => false end)
     then Raise (HTTPException 400 "Invalid image format. Please upload JPG or PNG.")
     else
       extracted_text <- ocr_output ;;
       if Nat.ltb (String.length (Py.strip extracted_text)) 10
       then Raise (HTTPException 400 "Could not extract readable text from image. Please ensure the image is clear and contains prescription text.")
       else
         extraction_result <- extract_drugs extracted_text ;;
         match Fusion.get_or [] extraction_result with
         | [] => Raise (HTTPException 400 "No drugs found in prescription image. Please ensure the image contains a valid prescription.")
         | extracted_drugs => analyse_image_drugs age extracted_text extracted_drugs
         end)
    (fun e => match e with
              | HTTPException _ _ => Raise e
              | _ => Raise (HTTPException 500 ("Image analysis failed: " ++ str_exn e))
              end).

End Endpoints.

(** The HTTP status a raised exception reaches the client with. *)
Definition status_of {A} (o : outcome A) : option nat :=
  match o with
  | Raise (HTTPException s _) => Some s
  | _ => None
  end.

End Api.

(** ** nlp_extractor.py: [MedicalNERExtractor.extract_drug_info] *)

Module NER.

(** An element of the ["drugs"] list parsed from the model's answer. *)
Inductive gator_entry :=
| GDict (drug_name name dosage frequency route : option string)
| GNotDict.

(** The dict returned by [query_gatortron]: whether it has an ["error"]
    key, and its ["drugs"] value. *)
Record gator_result := {
  g_error : bool;
  g_drugs : option (list gator_entry)
}.

Record drug_info := {
  drug_name : string;
  dosage : string;
  frequency : string;
  route : string
}.

(** The extraction engines the method may invoke. *)
Inductive engine_call := QueryGatorTron | RuleBasedExtraction.

Definition standardize (d : gator_entry) : list drug_info :=
  match d with
  | GDict dn n ds fr ro =>
      let name := match dn with Some x => x | None => Fusion.get_or "" n end in
      if String.eqb name "" then []
      else [ {| drug_name := name; dosage := Fusion.get_or "" ds;
                frequency := Fusion.get_or "" fr; route := Fusion.get_or "" ro |} ]
  | GNotDict => []
  end.

(** [extract_drug_info]; [query_gatortron] and [rule_based_extraction]
    are the two engines, and the first component records which of them
    ran. *)
Definition extract_drug_info (query_gatortron : string -> gator_result)
    (rule_based_extraction : string -> list drug_info) (medical_text : string)
    : list engine_call * list drug_info :=
  if String.eqb (Py.strip medical_text) "" then ([], [])
  else
    let result := query_gatortron medical_text in
    let fallback := ([QueryGatorTron; RuleBasedExtraction],
                     rule_based_extraction medical_text) in
    if negb (g_error result) then
      match g_drugs result with
      | Some drugs =>
          match List.flat_map standardize drugs with
          | [] => fallback
          | standardized_drugs => ([QueryGatorTron], standardized_drugs)
          end
      | None => fallback
      end
    else fallback.

(** Every character is whitespace in the sense of [str.isspace]. *)
Fixpoint all_space (s : string) : bool :=
  match s with
  | EmptyString => true
  | String c r => Py.is_space c && all_space r
  end.

End NER.

(** ** dataset_loader.py: loading and dataset info *)

Module Loading.
Import DatasetLoader Exc.

(** [DatasetLoader.load_datasets].  [hoddi_file] and [mapping_file] are
    [None] when the file does not exist, otherwise what [pd.read_csv] or
    [json.load] returns or raises on it.  The result is the pair
    ([hoddi_data], [drug_mapping]) the loader is left with. *)
Definition load_datasets (hoddi_file : option (outcome hoddi_data))
    (mapping_file : option (outcome drug_mapping))
    : outcome (hoddi_data * drug_mapping) :=
  try_except
    (hoddi <- match hoddi_file with Some r => r | None => Return [] end ;;
     mapping <- match mapping_file with Some r => r | None => Return [] end ;;
     Return (hoddi, mapping))
    (fun _ => Return ([], [])).

Record dataset_info := {
  hoddi_loaded : bool;
  hoddi_records : nat;
  drug_mapping_loaded : bool;
  mapped_drugs : nat
}.

(** [DatasetLoader.get_dataset_info] *)
Definition get_dataset_info (h : hoddi_data) (m : drug_mapping) : dataset_info :=
  let empty := match h with [] => true | _ => false end in
  {| hoddi_loaded := negb empty;
     hoddi_records := if negb empty then length h else 0;
     drug_mapping_loaded := match m with [] => false | _ => true end;
     mapped_drugs := match m with [] => 0 | _ => length m end |}.

End Loading.

(** ** main.py: the analysis pipeline after extraction *)

Module Main.
Import DatasetLoader Risk.

Record DrugInfo := {
  di_name : string;
  di_dosage : string;
  di_frequency : string;
  di_drugbank_id : option string;
  di_interaction : option string
}.

Record Alternative := {
  original_drug : string;
  alternative : string;
  reason : string
}.

(** An entry of the interactions summary. *)
Record interaction_summary := {
  sm_drug : string;
  sm_drugbank_id : string;
  sm_interaction : string;
  sm_severity : string
}.

(** [AnalysisResponse]; [advice_list] is its [dosage_advice] field. *)
Record AnalysisResponse := {
  extracted_drugs : list DrugInfo;
  interactions : list interaction_summary;
  advice_list : list Risk.dosage_advice;
  alternatives : list Alternative;
  overall_risk : string;
  timestamp : string
}.

(** The loop body of [_get_age_based_dosage_advice] for one drug. *)
Definition age_based_advice (age : Z) (drug : DrugInfo) : Risk.dosage_advice :=
  let current_dosage := di_dosage drug in
  let '(recommended_dosage, advice_text, risk_level) :=
    if Z.ltb age 18%Z then
      if Py.contains "500mg" current_dosage then
        (Py.replace current_dosage "500mg" "250mg",
         "Reduced dosage recommended for pediatric patients", "Medium")
      else if Py.contains "1000mg" current_dosage then
        (Py.replace current_dosage "1000mg" "500mg",
         "Significantly reduced dosage for pediatric use", "High")
      else (current_dosage, "Verify pediatric dosing guidelines", "Medium")
    else if Z.ltb 65%Z age then
      if Py.contains "1000mg" current_dosage then
        (Py.replace current_dosage "1000mg" "750mg",
         "Reduced dosage recommended for elderly patients", "Medium")
      else if Py.contains "500mg" current_dosage
              && Py.contains "3/day" (di_frequency drug) then
        (current_dosage, "Consider reducing frequency for elderly patients", "Medium")
      else (current_dosage, "Standard adult dosage appropriate", "Low")
    else (current_dosage, "Standard adult dosage appropriate", "Low") in
  {| advice_drug := di_name drug;
     current_dosage := current_dosage;
     recommended_dosage := recommended_dosage;
     advice := advice_text;
     risk_level := risk_level |}.

(** [_get_age_based_dosage_advice] *)
Definition get_age_based_dosage_advice (drugs : list DrugInfo) (age : Z)
    : list Risk.dosage_advice :=
  map (age_based_advice age) drugs.

(** The [alternative_map] of [_suggest_alternatives], in its order. *)
Definition alternative_map : list (string * string) :=
  [("paracetamol", "ibuprofen"); ("acetaminophen", "ibuprofen");
   ("aspirin", "paracetamol"); ("ibuprofen", "naproxen");
   ("warfarin", "rivaroxaban"); ("metformin", "glipizide")].

(** [_suggest_alternatives] *)
Definition suggest_alternatives (drugs : list DrugInfo)
    (interaction_results : list drug_result) : list Alternative :=
  firstn 2
    (flat_map
       (fun result =>
          if negb (String.eqb (interaction result) "None")
             && Py.contains "severe" (Py.lower (interaction result)) then
            let drug_name := Py.lower (drug result) in
            match dict_get drug_name alternative_map with
            | Some alt =>
                [ {| original_drug := drug result;
                     alternative := Py.title alt;
                     reason := "Safer alternative due to interaction risk: "
                               ++ interaction result |} ]
            | None => []
            end
          else [])
       interaction_results).

(** The [next(...)] lookup of the endpoints that attaches to an extracted
    drug the first interaction result of the same lower-cased name. *)
Definition enhance (interaction_results : list drug_result)
    (d : Api.extracted_drug) : DrugInfo :=
  match List.find (fun result => String.eqb (Py.lower (drug result))
                                            (Py.lower (Api.x_name d)))
          interaction_results with
  | Some r =>
      {| di_name := Api.x_name d; di_dosage := Api.x_dosage d;
         di_frequency := Api.x_frequency d;
         di_drugbank_id := Some (drugbank_id r);
         di_interaction := Some (interaction r) |}
  | None =>
      {| di_name := Api.x_name d; di_dosage := Api.x_dosage d;
         di_frequency := Api.x_frequency d;
         di_drugbank_id := None;
         di_interaction := Some "None" |}
  end.

(** The [interactions_summary] loop. *)
Definition summarize (interaction_results : list drug_result)
    : list interaction_summary :=
  map (fun result =>
         {| sm_drug := drug result; sm_drugbank_id := drugbank_id result;
            sm_interaction := interaction result;
            sm_severity := extract_severity (interaction result) |})
    (filter (fun result => negb (String.eqb (interaction result) "None"))
       interaction_results).

(** Steps 2 to 4 of [analyze_prescription], after the "no drugs" check,
    with the loader's table [h] and mapping [m]; [now] is the value of
    [datetime.now().isoformat()]. *)
Definition analyse_drugs (m : drug_mapping) (h : hoddi_data) (now : string)
    (age : Z) (extracted : list Api.extracted_drug) : AnalysisResponse :=
  let drug_names := map Api.x_name extracted in
  let interaction_results := get_interaction m h drug_names in
  let enhanced_drugs := map (enhance interaction_results) extracted in
  let dosage_advice := get_age_based_dosage_advice enhanced_drugs age in
  let alts := suggest_alternatives enhanced_drugs interaction_results in
  let risk := calculate_overall_risk interaction_results dosage_advice in
  {| extracted_drugs := enhanced_drugs;
     interactions := summarize interaction_results;
     advice_list := dosage_advice;
     alternatives := alts;
     overall_risk := risk;
     timestamp := now |}.

End Main.

(** ** medical_nlp_extractor.py: the extractors and their combination *)

Module MedicalNLP.
Import Fusion Exc.

(** An entity of a Hugging Face token-classification pipeline. *)
Record ner_entity := {
  en_word : string;
  en_score : Q;
  en_entity_group : string
}.

Definition biobert_suffixes : list string := ["cillin"; "mycin"; "prazole"; "olol"].

(** [_extract_with_biobert]; [tokens] is [None] when the model is not
    loaded, otherwise the word pieces of the tokenised text or the error
    raised on the way.  [None] as result stands for the empty dict. *)
Definition extract_with_biobert (tokens : option (outcome (list string)))
    : option extraction_result :=
  match tokens with
  | Some (Return toks) =>
      Some {| r_method := Some "BioBERT"; r_confidence := Some (7 # 10);
              r_drugs := None;
              r_drug_candidates :=
                Some (filter (fun token =>
                                negb (Py.prefixb "##" token)
                                && existsb (fun suffix => Py.contains suffix (Py.lower token))
                                     biobert_suffixes) toks);
              r_results := None |}
  | _ => None
  end.

Definition pubmed_keywords : list string := ["drug"; "medication"; "medicine"].

(** [_extract_with_pubmedbert]: the ['drugs'] entries are dicts with a
    ['text'] key and no ['name'] key; the ['medical_terms'] list is not
    read by the fusion and is not kept. *)
Definition extract_with_pubmedbert (entities : option (outcome (list ner_entity)))
    : option extraction_result :=
  match entities with
  | Some (Return es) =>
      let kept := filter (fun e => Qltb (1 # 2) (en_score e)) es in
      let drugs :=
        filter (fun e => existsb (fun keyword =>
                                    Py.contains keyword
                                      (Py.lower (Py.replace (en_word e) "##" "")))
                           pubmed_keywords) kept in
      Some {| r_method := Some "PubMedBERT"; r_confidence := Some (8 # 10);
              r_drugs := Some (map (fun e => DrugDict None
                                               (Some (Py.replace (en_word e) "##" "")))
                                 drugs);
              r_drug_candidates := None; r_results := None |}
  | _ => None
  end.

(** [_extract_with_watson_nlu]: its ['entities'] and ['keywords'] lists
    are not keys the fusion reads; only whether the call succeeded matters. *)
Definition extract_with_watson_nlu {A : Type} (response : option (outcome A))
    : option extraction_result :=
  match response with
  | Some (Return _) =>
      Some {| r_method := Some "Watson NLU"; r_confidence := Some (75 # 100);
              r_drugs := None; r_drug_candidates := None; r_results := None |}
  | _ => None
  end.

(** [_extract_with_drug_ner]; an entity without ['entity_group'] has the
    empty string there. *)
Definition extract_with_drug_ner (entities : option (outcome (list ner_entity)))
    : option extraction_result :=
  match entities with
  | Some (Return es) =>
      let drugs := filter (fun e => Qltb (6 # 10) (en_score e)
                                    && Py.contains "DRUG" (Py.upper (en_entity_group e))) es in
      Some {| r_method := Some "Drug NER"; r_confidence := Some (85 # 100);
              r_drugs := Some (map (fun e => DrugDict (Some (en_word e)) None) drugs);
              r_drug_candidates := None; r_results := None |}
  | _ => None
  end.

(** [_extract_with_patterns], given what its regular expressions found. *)
Definition extract_with_patterns (results : pattern_data) : extraction_result :=
  {| r_method := Some "Pattern Matching"; r_confidence := Some (6 # 10);
     r_drugs := None; r_drug_candidates := None; r_results := Some results |}.

Definition result_confidence (r : extraction_result) : Q := get_or 0%Q (r_confidence r).

(** [max(results, key=lambda x: x.get('confidence', 0))]: the first maximal one. *)
Fixpoint max_by_confidence (best : extraction_result) (rs : list extraction_result)
    : extraction_result :=
  match rs with
  | [] => best
  | r :: rs' => if Qltb (result_confidence best) (result_confidence r)
                then max_by_confidence r rs' else max_by_confidence best rs'
  end.

Record MedicalExtraction := {
  md_drugs : list DrugEntity;
  md_patient_info : list (string * string);
  md_doctor_info : list (string * string);
  md_raw_text : string;
  md_confidence_score : Q;
  md_extraction_method : string
}.

Definition opt_list {A} (o : option A) : list A :=
  match o with Some a => [a] | None => [] end.

Section Entities.

(** The regular-expression readers of patient and doctor details. *)
Variables extract_patient_info extract_doctor_info : string -> list (string * string).

(** [extract_medical_entities]: the four model adapters' inputs as above,
    and what the pattern extractor found.  The average confidence is taken
    in exact arithmetic. *)
Definition extract_medical_entities {A : Type}
    (biobert : option (outcome (list string)))
    (pubmedbert : option (outcome (list ner_entity)))
    (watson : option (outcome A))
    (drug_ner : option (outcome (list ner_entity)))
    (patterns : pattern_data) (text : string) : outcome MedicalExtraction :=
  let extraction_results :=
    (opt_list (extract_with_biobert biobert)
     ++ opt_list (extract_with_pubmedbert pubmedbert)
     ++ opt_list (extract_with_watson_nlu watson)
     ++ opt_list (extract_with_drug_ner drug_ner)
     ++ [extract_with_patterns patterns])%list in
  let combined_drugs := combine_drug_extractions extraction_results text in
  let patient_info := extract_patient_info text in
  let doctor_info := extract_doctor_info text in
  let avg_confidence :=
    match extraction_results with
    | [] => 0%Q
    | _ => (fold_right Qplus 0 (map result_confidence extraction_results)
            / inject_Z (Z.of_nat (length extraction_results)))%Q
    end in
  best_method <-
    match extraction_results with
    | [] => Return "Pattern Matching"
    | r :: rs => match r_method (max_by_confidence r rs) with
                 | Some m => Return m
                 | None => Raise (OtherException "'method'")
                 end
    end ;;
  Return {| md_drugs := combined_drugs; md_patient_info := patient_info;
            md_doctor_info := doctor_info; md_raw_text := text;
            md_confidence_score := avg_confidence;
            md_extraction_method := best_method |}.

End Entities.

(** The ['results'] dict of the first ['Pattern Matching'] result, as
    [_combine_drug_extractions] reads it. *)
Definition pattern_data_of (results : list extraction_result) : pattern_data :=
  match List.find (fun r => match r_method r with
                            | Some m => String.eqb m "Pattern Matching"
                            | None => false end) results with
  | Some r => get_or empty_pattern_data (r_results r)
  | None => empty_pattern_data
  end.

End MedicalNLP.

(** ** ocr_reader.py: the format check before the engines *)

Module OCRFile.
Import Exc OCR.

(** [extract_text_from_image] from the opened image on: [image_format] is
    [image.format]; an unsupported one raises [ValueError] inside the
    [try], which wraps it into a [RuntimeError]. *)
Definition extract_text_from_image_file (image_format : option string)
    (paddle : option ocr_result) (watson : option string)
    (tesseract : option ocr_result) : list engine * outcome ocr_result :=
  match image_format with
  | Some f =>
      if negb (String.eqb f "") && negb (existsb (String.eqb f) ["JPEG"; "PNG"; "JPG"])
      then ([], wrap_failure (Raise (OtherException ("Unsupported image format: " ++ f))))
      else extract_text_from_image paddle watson tesseract
  | None => extract_text_from_image paddle watson tesseract
  end.

End OCRFile.

(** * Properties *)

(** ** Risk aggregation *)

Module RiskFacts.
Import DatasetLoader Risk.

Lemma filter_length_pos {A} (f : A -> bool) (l : list A) :
  Nat.ltb 0 (length (filter f l)) = existsb f l.
Proof.
  induction l as [|x l IH]; simpl; [reflexivity|].
  destruct (f x); simpl; [reflexivity | exact IH].
Qed.

Lemma count_interaction_step h m r :
  count_interaction (h, m) r =
  (h + (if interaction_signals ["severe"; "major"] r then 1 else 0),
   m + (if negb (interaction_signals ["severe"; "major"] r)
           && interaction_signals ["moderate"; "warning"] r then 1 else 0)).
Proof.
  unfold count_interaction, interaction_signals, extract_severity; simpl.
  destruct (String.eqb (interaction r) "None"); simpl; [f_equal; lia|].
  destruct (Py.contains "severe" (Py.lower (interaction r)));
  destruct (Py.contains "major" (Py.lower (interaction r)));
  destruct (Py.contains "moderate" (Py.lower (interaction r)));
  destruct (Py.contains "warning" (Py.lower (interaction r)));
  simpl; f_equal; lia.
Qed.

Lemma fold_count_interaction rs h m :
  fold_left count_interaction rs (h, m) =
  (h + length (filter (interaction_signals ["severe"; "major"]) rs),
   m + length (filter (fun r => negb (interaction_signals ["severe"; "major"] r)
                               && interaction_signals ["moderate"; "warning"] r) rs)).
Proof.
  revert h m; induction rs as [|r rs IH]; intros h m; [simpl; f_equal; lia|].
  cbn [fold_left]; rewrite count_interaction_step, IH.
  remember (interaction_signals ["severe"; "major"]) as hi.
  remember (interaction_signals ["moderate"; "warning"]) as me.
  simpl; destruct (hi r); destruct (me r); simpl; f_equal; lia.
Qed.

Lemma count_advice_step h m a :
  count_advice (h, m) a =
  (h + (if String.eqb (risk_level a) "High" then 1 else 0),
   m + (if negb (String.eqb (risk_level a) "High")
           && String.eqb (risk_level a) "Medium" then 1 else 0)).
Proof.
  unfold count_advice.
  destruct (String.eqb (risk_level a) "High"); simpl;
    [|destruct (String.eqb (risk_level a) "Medium"); simpl]; f_equal; lia.
Qed.

Lemma fold_count_advice ads h m :
  fold_left count_advice ads (h, m) =
  (h + length (filter (fun a => String.eqb (risk_level a) "High") ads),
   m + length (filter (fun a => negb (String.eqb (risk_level a) "High")
                               && String.eqb (risk_level a) "Medium") ads)).
Proof.
  revert h m; induction ads as [|a ads IH]; intros h m; [simpl; f_equal; lia|].
  cbn [fold_left]; rewrite count_advice_step, IH.
  simpl; destruct (String.eqb (risk_level a) "High");
  destruct (String.eqb (risk_level a) "Medium"); simpl; f_equal; lia.
Qed.

Lemma existsb_negb_false {A} (f g : A -> bool) (l : list A) :
  existsb f l = false ->
  existsb (fun x => negb (f x) && g x) l = existsb g l.
Proof.
  induction l as [|x l IH]; simpl; [reflexivity|].
  intros H; apply orb_false_iff in H as [Hx Hl].
  rewrite Hx; simpl; rewrite (IH Hl); reflexivity.
Qed.

Lemma ltb_0_add a b : Nat.ltb 0 (a + b) = Nat.ltb 0 a || Nat.ltb 0 b.
Proof. destruct a, b; reflexivity. Qed.

End RiskFacts.

(** ** Fusion *)

Module FusionFacts.
Import Fusion.

Lemma fold_left_filter {A B} (f : B -> A -> B) (p : A -> bool) l b :
  fold_left f (filter p l) b = fold_left (fun b x => if p x then f b x else b) l b.
Proof.
  revert b; induction l as [|x l IH]; intros b; simpl; [reflexivity|].
  destruct (p x); simpl; apply IH.
Qed.

Lemma Qltb_true x y : Qltb x y = true <-> (x < y)%Q.
Proof.
  unfold Qltb; rewrite negb_true_iff; split.
  - intros H; apply Qnot_le_lt; intros Hle; apply Qle_bool_iff in Hle; congruence.
  - intros H; destruct (Qle_bool y x) eqn:E; [|reflexivity].
    apply Qle_bool_iff in E; exfalso; apply (Qlt_not_le _ _ H E).
Qed.

Lemma Qltb_false x y : Qltb x y = false -> (y <= x)%Q.
Proof.
  intros H; apply Qnot_lt_le; intros Hlt; apply Qltb_true in Hlt; congruence.
Qed.

Lemma dict_get_set {V} k k' (v : V) d :
  dict_get k (dict_set k' v d) = if String.eqb k k' then Some v else dict_get k d.
Proof.
  induction d as [|[k'' v''] d IH]; simpl; [reflexivity|].
  destruct (String.eqb_spec k' k'') as [<-|Hne]; simpl.
  - destruct (String.eqb k k'); reflexivity.
  - rewrite IH. destruct (String.eqb_spec k k') as [->|Hk]; [|reflexivity].
    apply String.eqb_neq in Hne; rewrite Hne; reflexivity.
Qed.

Lemma dict_get_record k acc d :
  dict_get k (record_detection acc d) =
  if String.eqb (name_key (det_name d)) k then keep_best (dict_get k acc) d
  else dict_get k acc.
Proof.
  unfold record_detection, record_drug.
  destruct (String.eqb_spec (name_key (det_name d)) k) as [<-|Hne].
  - destruct (dict_get (name_key (det_name d)) acc) as [old|] eqn:E; simpl.
    + destruct (Qltb (s_confidence old) (det_conf d));
        [rewrite dict_get_set, String.eqb_refl; reflexivity | exact E].
    + rewrite dict_get_set, String.eqb_refl; reflexivity.
  - assert (Hk : String.eqb k (name_key (det_name d)) = false)
      by (apply String.eqb_neq; congruence).
    destruct (dict_get (name_key (det_name d)) acc) as [old|];
      [destruct (Qltb (s_confidence old) (det_conf d))|];
      try rewrite dict_get_set, Hk; reflexivity.
Qed.

Lemma dict_get_fold k ds acc :
  dict_get k (fold_left record_detection ds acc) =
  fold_left keep_best
    (filter (fun d => String.eqb (name_key (det_name d)) k) ds) (dict_get k acc).
Proof.
  revert acc; induction ds as [|d ds IH]; intros acc; simpl; [reflexivity|].
  rewrite IH, dict_get_record.
  destruct (String.eqb (name_key (det_name d)) k); reflexivity.
Qed.

Lemma fold_record_tagged meth c names acc :
  fold_left record_detection (map (fun n => (n, c, meth)) names) acc =
  fold_left (record_drug meth c) names acc.
Proof.
  revert acc; induction names as [|n names IH]; intros acc; simpl; auto.
Qed.

Lemma fold_record_filtered meth c ds acc :
  fold_left (fun acc d => let name := entry_name d in
                          if long_enough name then record_drug meth c acc name
                          else acc) ds acc =
  fold_left (record_drug meth c) (filter long_enough (map entry_name ds)) acc.
Proof.
  revert acc; induction ds as [|d ds IH]; intros acc; simpl; [reflexivity|].
  destruct (long_enough (entry_name d)); simpl; apply IH.
Qed.

Lemma process_result_detections acc r :
  process_result acc r = fold_left record_detection (result_detections r) acc.
Proof.
  unfold process_result, result_detections.
  destruct (r_drugs r) as [ds|].
  - rewrite fold_record_tagged, fold_record_filtered; reflexivity.
  - destruct (r_drug_candidates r) as [cs|].
    + rewrite fold_record_tagged; reflexivity.
    + destruct (r_results r) as [pd|]; [|reflexivity].
      rewrite fold_record_tagged; reflexivity.
Qed.

Lemma fold_process_results results acc :
  fold_left process_result results acc =
  fold_left record_detection (detections results) acc.
Proof.
  revert acc; induction results as [|r results IH]; intros acc; simpl; [reflexivity|].
  unfold detections in *; simpl.
  rewrite fold_left_app, <- process_result_detections; apply IH.
Qed.

Lemma split_head_le (x d : string * Q * string) l pre post :
  x :: l = (pre ++ d :: post)%list ->
  Forall (fun y => det_conf y < det_conf d)%Q pre ->
  (det_conf x <= det_conf d)%Q.
Proof.
  destruct pre as [|y pre]; simpl; intros Heq Hpre.
  - inversion Heq; subst; apply Qle_refl.
  - inversion Heq; subst. inversion Hpre; subst. apply Qlt_le_weak; assumption.
Qed.

Lemma keep_best_first_max a l :
  exists pre d post,
    a :: l = (pre ++ d :: post)%list /\
    Forall (fun x => det_conf x < det_conf d)%Q pre /\
    Forall (fun x => det_conf x <= det_conf d)%Q post /\
    fold_left keep_best l (Some (stored_of a)) = Some (stored_of d).
Proof.
  revert a; induction l as [|x l IH]; intros a.
  - exists [], a, []; repeat split; constructor.
  - cbn [fold_left]; unfold keep_best at 2; cbn [s_confidence stored_of].
    destruct (Qltb (det_conf a) (det_conf x)) eqn:Hlt.
    + apply Qltb_true in Hlt.
      destruct (IH x) as (pre & d & post & Hs & Hpre & Hpost & Hf).
      exists (a :: pre), d, post; repeat split; auto.
      * rewrite Hs; reflexivity.
      * constructor; [|exact Hpre].
        eapply Qlt_le_trans; [exact Hlt | exact (split_head_le _ _ _ _ _ Hs Hpre)].
    + apply Qltb_false in Hlt.
      destruct (IH a) as (pre & d & post & Hs & Hpre & Hpost & Hf).
      destruct pre as [|y pre]; simpl in Hs; inversion Hs; subst.
      * exists [], d, (x :: post); repeat split; auto.
      * inversion Hpre as [|? ? Hy Hpre']; subst.
        exists (y :: x :: pre), d, post; repeat split; auto.
        constructor; [exact Hy|]; constructor; [|exact Hpre'].
        eapply Qle_lt_trans; [exact Hlt | exact Hy].
Qed.

Lemma dict_set_consistent k st d :
  name_key (s_name st) = k -> Forall key_consistent d ->
  Forall key_consistent (dict_set k st d).
Proof.
  intros Hk; induction 1 as [|[k' v'] d Hkv Hd IH]; simpl.
  - constructor; [exact Hk | constructor].
  - destruct (String.eqb k k'); constructor; auto.
Qed.

Lemma fold_record_consistent ds acc :
  Forall key_consistent acc ->
  Forall key_consistent (fold_left record_detection ds acc).
Proof.
  revert acc; induction ds as [|d ds IH]; intros acc Hacc; simpl; [exact Hacc|].
  apply IH; unfold record_detection, record_drug.
  destruct (dict_get (name_key (det_name d)) acc) as [old|];
    [destruct (Qltb (s_confidence old) (det_conf d))|];
    try apply dict_set_consistent; auto.
Qed.

Lemma find_entity_by_key k (G : stored -> DrugEntity) all :
  (forall st, de_name (G st) = s_name st) ->
  Forall key_consistent all ->
  List.find (fun e => String.eqb (name_key (de_name e)) k) (map (fun p => G (snd p)) all)
  = option_map G (dict_get k all).
Proof.
  intros HG; induction 1 as [|[k' st] all Hc Hall IH]; simpl; [reflexivity|].
  unfold key_consistent in Hc; simpl in Hc.
  rewrite HG, Hc, String.eqb_sym.
  destruct (String.eqb k k'); [reflexivity | exact IH].
Qed.

Section ClosestMatch.

Variables (text : string) (dp : Z).

Local Abbreviation pos c := (Py.find (Py.lower text) (Py.lower c)).
Local Abbreviation dist c := (Z.abs (pos c - dp)).

Lemma closest_step_eq cl mo x :
  closest_step text dp (cl, mo) x =
  if Z.eqb (pos x) (-1) then (cl, mo)
  else match mo with
       | None => (x, Some (dist x))
       | Some m => if Z.ltb (dist x) m then (x, Some (dist x)) else (cl, mo)
       end.
Proof. unfold closest_step; destruct (Z.eqb (pos x) (-1)); reflexivity. Qed.

Lemma closest_fold_some l cl m :
  let r := fst (fold_left (closest_step text dp) l (cl, Some m)) in
  (Forall (fun x => pos x <> (-1)%Z -> (m <= dist x)%Z) l /\ r = cl) \/
  (exists pre c post, l = (pre ++ c :: post)%list /\ pos c <> (-1)%Z /\
     (dist c < m)%Z /\
     Forall (fun x => pos x <> (-1)%Z -> (dist c < dist x)%Z) pre /\
     Forall (fun x => pos x <> (-1)%Z -> (dist c <= dist x)%Z) post /\ r = c).
Proof.
  revert cl m; induction l as [|x l IH]; intros cl m r.
  - left; split; [constructor | reflexivity].
  - unfold r; clear r; cbn [fold_left]; rewrite closest_step_eq.
    destruct (Z.eqb_spec (pos x) (-1)) as [Hx|Hx].
    + destruct (IH cl m) as [[Hall Hr]|(pre & c & post & Hs & Hc & Hlt & Hpre & Hpost & Hr)].
      * left; split; [constructor; [intros; contradiction | exact Hall] | exact Hr].
      * right; exists (x :: pre), c, post; repeat split; auto;
          first [rewrite Hs; reflexivity | lia
                | constructor; [intros; first [contradiction | lia] | exact Hpre]].
    + cbv iota; destruct (Z.ltb_spec (dist x) m) as [Hd|Hd].
      * destruct (IH x (dist x)) as [[Hall Hr]|(pre & c & post & Hs & Hc & Hlt & Hpre & Hpost & Hr)].
        -- right; exists [], x, l; repeat split; auto.
        -- right; exists (x :: pre), c, post; repeat split; auto;
          first [rewrite Hs; reflexivity | lia
                | constructor; [intros; first [contradiction | lia] | exact Hpre]].
      * destruct (IH cl m) as [[Hall Hr]|(pre & c & post & Hs & Hc & Hlt & Hpre & Hpost & Hr)].
        -- left; split; [constructor; [intros; lia | exact Hall] | exact Hr].
        -- right; exists (x :: pre), c, post; repeat split; auto;
          first [rewrite Hs; reflexivity | lia
                | constructor; [intros; first [contradiction | lia] | exact Hpre]].
Qed.

Lemma closest_fold_none l :
  let r := fst (fold_left (closest_step text dp) l ("", None)) in
  (Forall (fun x => pos x = (-1)%Z) l /\ r = "") \/
  (exists pre c post, l = (pre ++ c :: post)%list /\ pos c <> (-1)%Z /\
     Forall (fun x => pos x <> (-1)%Z -> (dist c < dist x)%Z) pre /\
     Forall (fun x => pos x <> (-1)%Z -> (dist c <= dist x)%Z) post /\ r = c).
Proof.
  induction l as [|x l IH]; intros r.
  - left; split; [constructor | reflexivity].
  - unfold r; clear r; cbn [fold_left]; rewrite closest_step_eq.
    destruct (Z.eqb_spec (pos x) (-1)) as [Hx|Hx].
    + destruct IH as [[Hall Hr]|(pre & c & post & Hs & Hc & Hpre & Hpost & Hr)].
      * left; split; [constructor; [exact Hx | exact Hall] | exact Hr].
      * right; exists (x :: pre), c, post; repeat split; auto;
          first [rewrite Hs; reflexivity | lia
                | constructor; [intros; first [contradiction | lia] | exact Hpre]].
    + destruct (closest_fold_some l x (dist x))
        as [[Hall Hr]|(pre & c & post & Hs & Hc & Hlt & Hpre & Hpost & Hr)].
      * right; exists [], x, l; repeat split; auto.
      * right; exists (x :: pre), c, post; repeat split; auto;
          first [rewrite Hs; reflexivity | lia
                | constructor; [intros; first [contradiction | lia] | exact Hpre]].
Qed.

End ClosestMatch.

End FusionFacts.

(** ** Interaction lookup *)

Module LoaderFacts.
Import DatasetLoader.

Lemma row_matches_comm a b r : row_matches a b r = row_matches b a r.
Proof. unfold row_matches; apply orb_comm. Qed.

Lemma dict_get_in k v m :
  NoDup (map fst m) -> In (k, v) m -> dict_get k m = Some v.
Proof.
  induction m as [|[k' v'] m IH]; simpl; [tauto|].
  intros Hnd Hin; inversion Hnd as [|? ? Hnot Hnd']; subst.
  destruct (String.eqb_spec k k') as [->|Hne].
  - destruct Hin as [Heq|Hin]; [congruence|].
    exfalso; apply Hnot; apply (in_map fst) in Hin; exact Hin.
  - destruct Hin as [Heq|Hin]; [congruence|]. auto.
Qed.

Lemma dict_get_notin k m : ~ In k (map fst m) -> dict_get k m = None.
Proof.
  induction m as [|[k' v'] m IH]; simpl; [reflexivity|].
  intros Hn; destruct (String.eqb_spec k k') as [->|Hne]; [tauto|].
  apply IH; tauto.
Qed.

Lemma find_first {A} (f : A -> bool) pre x post :
  Forall (fun y => f y = false) pre -> f x = true ->
  List.find f (pre ++ x :: post) = Some x.
Proof.
  induction 1 as [|y pre Hy _ IH]; simpl; intros Hx; [rewrite Hx; reflexivity|].
  rewrite Hy; auto.
Qed.

Lemma find_none {A} (f : A -> bool) l :
  Forall (fun y => f y = false) l -> List.find f l = None.
Proof. induction 1 as [|y l Hy _ IH]; simpl; [reflexivity|]. rewrite Hy; exact IH. Qed.

Lemma fold_right_filter_map {A B} (F : A -> list B -> list B) (p : A -> bool)
    (g : A -> B) ps :
  (forall a acc, F a acc = if p a then g a :: acc else acc) ->
  fold_right F [] ps = map g (filter p ps).
Proof.
  intros HF; induction ps as [|a ps IH]; simpl; [reflexivity|].
  rewrite HF, IH; destruct (p a); reflexivity.
Qed.

Lemma interactions_for_empty_table m i d ps :
  List.fold_right
    (fun '(j, other_drug) acc =>
       if Nat.eqb i j then acc
       else let it := check_drug_interaction m [] d other_drug in
            if String.eqb it "None" then acc
            else ("with " ++ other_drug ++ ": " ++ it) :: acc) [] ps
  = List.map (fun '(_, o) => "with " ++ o ++ ": Dataset not available")
      (List.filter (fun '(j, _) => negb (Nat.eqb i j)) ps).
Proof.
  apply fold_right_filter_map.
  intros [j o] acc; simpl; destruct (Nat.eqb i j); reflexivity.
Qed.

Lemma filter_others_nil i n (drugs : list string) :
  i < n -> length drugs = n ->
  (List.filter (fun '(j, _) => negb (Nat.eqb i j))
     (List.combine (List.seq 0 n) drugs) = [] <-> n <= 1).
Proof.
  intros Hi Hl; split.
  - intros H. destruct (Nat.le_gt_cases n 1) as [|Hgt]; [assumption|exfalso].
    destruct drugs as [|d0 [|d1 ds]]; simpl in Hl; try lia.
    destruct n as [|[|n]]; try lia. simpl in H.
    destruct i as [|i]; simpl in H; [|discriminate].
    destruct (negb (Nat.eqb 0 0)); simpl in H; discriminate.
  - intros Hn. destruct n as [|[|n]]; try lia.
    destruct drugs as [|d0 [|d1 ds]]; simpl in Hl; try lia.
    assert (i = 0) by lia; subst; reflexivity.
Qed.

Lemma fst_combine_same_length {A B} (l1 : list A) (l2 : list B) :
  length l1 = length l2 -> map fst (combine l1 l2) = l1.
Proof.
  revert l2; induction l1 as [|a l1 IH]; intros [|b l2]; simpl; try discriminate;
    [reflexivity|].
  intros H; injection H as H; rewrite IH; auto.
Qed.

(** The other drugs seen from a position [i] before all of the indices. *)
Lemma others_seq_before k (l : list string) i :
  i < k ->
  map snd (List.filter (fun '(j, _) => negb (Nat.eqb i j))
             (List.combine (List.seq k (length l)) l)) = l.
Proof.
  revert k; induction l as [|a l IH]; intros k Hik; simpl; [reflexivity|].
  destruct (Nat.eqb_spec i k) as [E|_]; [lia|]; simpl.
  rewrite IH by lia; reflexivity.
Qed.

(** The other drugs seen from position [i]: all but the one at [i]. *)
Lemma others_seq_at k (l : list string) i :
  k <= i ->
  map snd (List.filter (fun '(j, _) => negb (Nat.eqb i j))
             (List.combine (List.seq k (length l)) l))
  = (firstn (i - k) l ++ skipn (S (i - k)) l)%list.
Proof.
  revert k; induction l as [|a l IH]; intros k Hik; simpl.
  - destruct (i - k); reflexivity.
  - destruct (Nat.eqb_spec i k) as [->|Hne]; simpl.
    + rewrite others_seq_before by lia; rewrite Nat.sub_diag; reflexivity.
    + rewrite IH by lia.
      replace (i - k) with (S (i - S k)) by lia; reflexivity.
Qed.

End LoaderFacts.

(** * Claims *)

Import DatasetLoader Risk RiskFacts LoaderFacts.

(** C1. [_calculate_overall_risk] is High when some interaction text other
    than "None" mentions "severe" or "major" (any case) or some dosage
    advice has risk level "High"; otherwise Medium when some such text
    mentions "moderate" or "warning" or some advice has risk level
    "Medium"; otherwise Low, whatever other signals coexist. *)
Theorem calculate_overall_risk_monotone rs ads :
  calculate_overall_risk rs ads = overall_risk_spec rs ads.
Proof.
  unfold calculate_overall_risk, overall_risk_spec.
  rewrite fold_count_interaction, fold_count_advice; simpl.
  rewrite !ltb_0_add, !filter_length_pos.
  destruct (existsb (interaction_signals ["severe"; "major"]) rs) eqn:E1;
    [reflexivity|].
  destruct (existsb (fun a => String.eqb (risk_level a) "High") ads) eqn:E2;
    [reflexivity|].
  simpl.
  rewrite (existsb_negb_false _ _ _ E1).
  rewrite (existsb_negb_false (fun a => String.eqb (risk_level a) "High")
             (fun a => String.eqb (risk_level a) "Medium") _ E2).
  reflexivity.
Qed.

(** C3. [check_drug_interaction] gives the same answer for both argument
    orders: the table is searched for both orderings of the two resolved
    identifiers. *)
Theorem check_drug_interaction_symmetric m h a b :
  check_drug_interaction m h a b = check_drug_interaction m h b a.
Proof.
  unfold check_drug_interaction; destruct h as [|r0 h]; [reflexivity|].
  rewrite (filter_ext (row_matches (get_drugbank_id m a) (get_drugbank_id m b))
                      (row_matches (get_drugbank_id m b) (get_drugbank_id m a)));
    [reflexivity|].
  intros r; apply row_matches_comm.
Qed.

(** C4. [get_drugbank_id] normalises the name (lower case, stripped),
    returns the exact entry when the normalised name is a key, otherwise
    the identifier of the first mapped name, in table order, that contains
    the normalised name or is contained in it, otherwise
    "DB_UNKNOWN_" followed by the upper-cased name. *)
Theorem get_drugbank_id_resolution_order m drug_name
    (Hkeys : NoDup (map fst m)) :
  let key := Py.strip (Py.lower drug_name) in
  let fuzzy (kv : string * string) :=
    Py.contains key (fst kv) || Py.contains (fst kv) key in
  (forall v, In (key, v) m -> get_drugbank_id m drug_name = v) /\
  (~ In key (map fst m) ->
   forall pre k v post, m = (pre ++ (k, v) :: post)%list ->
     fuzzy (k, v) = true -> Forall (fun kv => fuzzy kv = false) pre ->
     get_drugbank_id m drug_name = v) /\
  (~ In key (map fst m) -> Forall (fun kv => fuzzy kv = false) m ->
   get_drugbank_id m drug_name = "DB_UNKNOWN_" ++ Py.upper drug_name).
Proof.
  intros key fuzzy; unfold get_drugbank_id; fold key.
  split; [|split].
  - intros v Hin; rewrite (dict_get_in _ _ _ Hkeys Hin); reflexivity.
  - intros Hn pre k v post -> Hf Hpre.
    rewrite (dict_get_notin _ _ Hn).
    rewrite (find_first (fun kv => Py.contains key (fst kv) || Py.contains (fst kv) key)
               pre (k, v) post Hpre Hf); reflexivity.
  - intros Hn Hall.
    rewrite (dict_get_notin _ _ Hn).
    rewrite (find_none (fun kv => Py.contains key (fst kv) || Py.contains (fst kv) key)
               _ Hall); reflexivity.
Qed.

Lemma get_drugbank_id_resolution_order_witness :
  NoDup (map fst [("aspirin", "DB00945"); ("warfarin", "DB00682")]) /\
  get_drugbank_id [("aspirin", "DB00945"); ("warfarin", "DB00682")] "Xyzzyblorp" = "DB_UNKNOWN_XYZZYBLORP".
Proof.
  assert (Hnd : NoDup (map fst [("aspirin", "DB00945"); ("warfarin", "DB00682")])).
  { simpl; repeat constructor; simpl; intuition discriminate. }
  split; [exact Hnd|].
  apply (proj2 (proj2 (get_drugbank_id_resolution_order [("aspirin", "DB00945"); ("warfarin", "DB00682")] "Xyzzyblorp" Hnd))).
  - simpl; intuition discriminate.
  - repeat constructor.
Defined.

(** C5 (as the code has it).  With an empty interaction table every
    pairwise lookup answers "Dataset not available", never "None"; so in
    [get_interaction] a drug's interaction text is "None" exactly when the
    list has at most one drug, and otherwise is the entries
    "with <other>: Dataset not available" for every other entry of the
    list (all but the drug's own position, in list order), joined with
    "; ". *)
Theorem empty_table_lookups m :
  (forall d1 d2, check_drug_interaction m [] d1 d2 = "Dataset not available") /\
  (forall drugs,
     map interaction (get_interaction m [] drugs) =
     map (fun i => match (firstn i drugs ++ skipn (S i) drugs)%list with
                   | [] => "None"
                   | others =>
                       Py.join "; "
                         (map (fun o => "with " ++ o ++ ": Dataset not available") others)
                   end)
       (seq 0 (length drugs))) /\
  (forall drugs,
     Forall (fun r => interaction r = "None" <-> length drugs <= 1)
       (get_interaction m [] drugs)).
Proof.
  split; [reflexivity|]; split.
  { intros drugs; unfold get_interaction; rewrite map_map.
    rewrite <- (fst_combine_same_length (seq 0 (length drugs)) drugs)
      at 2 by apply length_seq.
    rewrite map_map; apply map_ext_in; intros [i d] Hin; cbn [fst interaction].
    apply in_combine_l, in_seq in Hin.
    unfold interactions_for; rewrite interactions_for_empty_table.
    assert (Hm : forall ps : list (nat * string),
               map (fun '(_, o) => "with " ++ o ++ ": Dataset not available") ps
               = map (fun o => "with " ++ o ++ ": Dataset not available") (map snd ps))
      by (intros ps; rewrite map_map; apply map_ext; intros [? ?]; reflexivity).
    rewrite Hm.
    rewrite others_seq_at by lia; rewrite Nat.sub_0_r.
    destruct (firstn i drugs ++ skipn (S i) drugs)%list; reflexivity. }
  intros drugs; unfold get_interaction; apply Forall_forall.
  intros r Hr; apply in_map_iff in Hr as [[i d] [<- Hin]].
  pose proof (in_combine_l _ _ _ _ Hin) as Hi; apply in_seq in Hi.
  assert (Hlen : length drugs = length drugs) by reflexivity.
  pose proof (filter_others_nil i (length drugs) drugs ltac:(lia) Hlen) as Hnil.
  unfold interactions_for; rewrite interactions_for_empty_table; simpl.
  destruct (filter (fun '(j, _) => negb (Nat.eqb i j))
              (combine (seq 0 (length drugs)) drugs)) as [|[j o] ps] eqn:E.
  - simpl; split; [intros _; apply Hnil; reflexivity | reflexivity].
  - cbn [map interaction].
    destruct ps as [|p ps]; simpl; (split; [discriminate|]);
      intros Hle; apply Hnil in Hle; discriminate.
Qed.

(** C5: the claim's "None" fails on two drugs and an empty table. *)
Lemma empty_table_counterexample :
  check_drug_interaction [] [] "aspirin" "warfarin" <> "None" /\
  map interaction (get_interaction [] [] ["aspirin"; "warfarin"]) =
    ["with warfarin: Dataset not available"; "with aspirin: Dataset not available"].
Proof. split; [discriminate | reflexivity]. Qed.

(** C6.  The OCR cascade of [extract_text_from_image] is the
    priority-ordered short-circuit cascade: PaddleOCR (threshold 0.6),
    IBM Watson (its fixed confidence 0.8 always clears its bar) and
    Tesseract (threshold 0.4).  A result above its engine's threshold is
    returned at once and no later engine runs; otherwise it joins the pool;
    with no short-circuit the pool's first maximal-confidence result is
    returned, and an empty pool raises the acquisition error.  In
    particular PaddleOCR at 0.9 stops the cascade after PaddleOCR, and
    PaddleOCR at 0.3 followed by a 0.5 result yields the 0.5 result. *)
Theorem ocr_cascade_short_circuit :
  (forall p w t,
     OCR.extract_text_from_image p w t = OCR.cascade_spec (OCR.reader_stages p w t) [] []) /\
  (forall txt meth w t,
     OCR.extract_text_from_image
       (Some {| OCR.o_text := txt; OCR.o_confidence := 9 # 10; OCR.o_method := meth |}) w t
     = ([OCR.PaddleOCR],
        Exc.Return {| OCR.o_text := txt; OCR.o_confidence := 9 # 10; OCR.o_method := meth |})) /\
  (forall txt1 txt2,
     snd (OCR.extract_text_from_image
            (Some {| OCR.o_text := txt1; OCR.o_confidence := 3 # 10; OCR.o_method := "PaddleOCR" |})
            None
            (Some {| OCR.o_text := txt2; OCR.o_confidence := 5 # 10; OCR.o_method := "Tesseract" |}))
     = Exc.Return {| OCR.o_text := txt2; OCR.o_confidence := 5 # 10; OCR.o_method := "Tesseract" |}) /\
  snd (OCR.extract_text_from_image None None None)
    = Exc.Raise (Exc.RuntimeError ("OCR extraction failed: " ++ OCR.all_failed_msg)).
Proof.
  split; [|split; [|split]]; try reflexivity.
  intros p w t.
  destruct p as [p|]; destruct w as [w|]; destruct t as [t|];
    unfold OCR.extract_text_from_image, OCR.reader_stages; cbn -[Fusion.Qltb];
    repeat match goal with
           | |- context [if ?b then _ else _] => destruct b eqn:?
           end; try reflexivity;
    match goal with
    | H : Fusion.Qltb 0 _ = false |- _ => vm_compute in H; discriminate H
    end.
Qed.

(** C7 (the defect).  The length filter of [_combine_drug_extractions]
    guards only the ['drugs'] branch: a two-letter mention from the
    pattern extractor's ['results'] branch (what "Ab 5mg" yields) becomes a
    fused entity, while the same mention in a ['drugs'] list is dropped. *)
Theorem short_mention_bypasses_length_filter :
  map Fusion.de_name
    (Fusion.combine_drug_extractions
       [ {| Fusion.r_method := Some "Pattern Matching";
            Fusion.r_confidence := Some (6 # 10);
            Fusion.r_drugs := None; Fusion.r_drug_candidates := None;
            Fusion.r_results := Some {| Fusion.p_drugs := Some ["Ab"];
                                        Fusion.p_dosages := Some ["5mg"];
                                        Fusion.p_frequencies := Some [];
                                        Fusion.p_routes := Some [];
                                        Fusion.p_durations := Some [] |} |} ]
       "Ab 5mg") = ["Ab"] /\
  Fusion.combine_drug_extractions
    [ {| Fusion.r_method := Some "Drug NER"; Fusion.r_confidence := Some (85 # 100);
         Fusion.r_drugs := Some [Fusion.DrugDict (Some "Ab") None];
         Fusion.r_drug_candidates := None; Fusion.r_results := None |} ]
    "Ab 5mg" = [].
Proof. split; reflexivity. Qed.

(** C9 (the defect).  On the text endpoint the "no drugs" [HTTPException]
    (400) is raised inside the [try] and caught by [except Exception], so
    it reaches the client as a generic 500 "Analysis failed: ...", the
    status of any internal failure; the image endpoint re-raises
    [HTTPException] and answers 400 with its specific message. *)
Theorem no_drugs_error_text_endpoint_500 :
  (forall AR (build : nat -> list Api.extracted_drug -> Exc.outcome AR) age text,
     Api.analyze_prescription AR (fun _ => Exc.Return (Some [])) build age text
     = Exc.Raise (Exc.HTTPException 500
                    "Analysis failed: 400: No drugs found in prescription text")) /\
  (forall AR (build : nat -> list Api.extracted_drug -> Exc.outcome AR) age text msg,
     Api.status_of
       (Api.analyze_prescription AR (fun _ => Exc.Raise (Exc.OtherException msg))
          build age text) = Some 500) /\
  (forall IAR (build : nat -> string -> list Api.extracted_drug -> Exc.outcome IAR) age,
     Api.analyze_prescription_image IAR (fun _ => Exc.Return (Some [])) build age
       (Some "image/png") (Exc.Return "Amoxicillin 500mg twice daily")
     = Exc.Raise (Exc.HTTPException 400
         "No drugs found in prescription image. Please ensure the image contains a valid prescription.")).
Proof. split; [|split]; reflexivity. Qed.

Lemma all_space_lstrip s : NER.all_space s = true -> Py.lstrip s = "".
Proof.
  induction s as [|c s IH]; simpl; [reflexivity|].
  intros H; apply andb_true_iff in H as [Hc Hs]; rewrite Hc; auto.
Qed.

(** C10.  On an empty or all-whitespace text [extract_drug_info] returns
    the empty list and invokes neither the model query nor the rule-based
    fallback. *)
Theorem extract_drug_info_blank_text query_gatortron rule_based_extraction text :
  NER.all_space text = true ->
  NER.extract_drug_info query_gatortron rule_based_extraction text = ([], []).
Proof.
  intros H; unfold NER.extract_drug_info, Py.strip.
  rewrite (all_space_lstrip _ H); reflexivity.
Qed.

Lemma extract_drug_info_blank_text_witness :
  let blank := String (ascii_of_nat 32) (String (ascii_of_nat 9)
                 (String (ascii_of_nat 10) EmptyString)) in
  NER.all_space blank = true /\
  NER.extract_drug_info
    (fun _ => {| NER.g_error := false;
                 NER.g_drugs := Some [NER.GDict (Some "Aspirin") None None None None] |})
    (fun _ => [ {| NER.drug_name := "Aspirin"; NER.dosage := ""; NER.frequency := "";
                   NER.route := "" |} ])
    blank = ([], []).
Proof.
  intros blank; split; [reflexivity|].
  apply extract_drug_info_blank_text; reflexivity.
Defined.

Import Fusion FusionFacts.

(** C2.  For a dedup key [k] with at least one detection, the detections of
    that key, in loop order, split as [pre ++ d :: post] where every
    earlier one has a strictly smaller confidence and every later one a
    confidence no greater than [d]'s; the fused entity of key [k] carries
    [d]'s name and confidence.  So a later detection replaces the stored
    one only when strictly more confident, the fused confidence is the
    maximum, and ties keep the first detection. *)
Theorem combine_keeps_max_confidence results text k :
  let ds := filter (fun d => String.eqb (name_key (det_name d)) k)
              (detections results) in
  ds <> [] ->
  exists pre d post,
    ds = (pre ++ d :: post)%list /\
    Forall (fun x => det_conf x < det_conf d)%Q pre /\
    Forall (fun x => det_conf x <= det_conf d)%Q post /\
    exists e,
      List.find (fun e => String.eqb (name_key (de_name e)) k)
        (combine_drug_extractions results text) = Some e /\
      de_name e = det_name d /\ de_confidence e = det_conf d.
Proof.
  intros ds Hne.
  destruct ds as [|a l] eqn:Eds; [contradiction|].
  destruct (keep_best_first_max a l) as (pre & d & post & Hs & Hpre & Hpost & Hf).
  exists pre, d, post; repeat split; auto.
  unfold combine_drug_extractions.
  set (pd := match List.find _ results with
             | Some r => get_or empty_pattern_data (r_results r)
             | None => empty_pattern_data end).
  set (G := fun drug_data : stored =>
         {| de_name := s_name drug_data;
            de_dosage := find_closest_match (s_name drug_data)
                           (get_or [] (p_dosages pd)) text;
            de_frequency := find_closest_match (s_name drug_data)
                              (get_or [] (p_frequencies pd)) text;
            de_route := find_closest_match (s_name drug_data)
                          (get_or [] (p_routes pd)) text;
            de_duration := find_closest_match (s_name drug_data)
                             (get_or [] (p_durations pd)) text;
            de_instructions := "";
            de_confidence := s_confidence drug_data |}).
  rewrite (map_ext _ (fun p => G (snd p))) by (intros [k' st]; reflexivity).
  rewrite (find_entity_by_key k G) by
    (reflexivity || (rewrite fold_process_results; apply fold_record_consistent; constructor)).
  rewrite fold_process_results, dict_get_fold.
  unfold ds in Eds; rewrite Eds; simpl.
  rewrite Hf; simpl.
  eexists; split; [reflexivity | split; reflexivity].
Qed.

(** The specification's tie case: two detections of "amoxicillin" at the
    same confidence 0.6; the first (from BioBERT) is kept. *)
Lemma combine_keeps_max_confidence_witness :
  let results :=
    [ {| r_method := Some "BioBERT"; r_confidence := Some (6 # 10);
         r_drugs := None; r_drug_candidates := Some ["Amoxicillin"];
         r_results := None |};
      {| r_method := Some "Pattern Matching"; r_confidence := Some (6 # 10);
         r_drugs := None; r_drug_candidates := None;
         r_results := Some {| p_drugs := Some ["amoxicillin"]; p_dosages := None;
                              p_frequencies := None; p_routes := None;
                              p_durations := None |} |} ] in
  let ds := filter (fun d => String.eqb (name_key (det_name d)) "amoxicillin")
              (detections results) in
  ds <> [] /\
  exists pre d post,
    ds = (pre ++ d :: post)%list /\
    Forall (fun x => det_conf x < det_conf d)%Q pre /\
    Forall (fun x => det_conf x <= det_conf d)%Q post /\
    exists e,
      List.find (fun e => String.eqb (name_key (de_name e)) "amoxicillin")
        (combine_drug_extractions results "Amoxicillin 500mg") = Some e /\
      de_name e = det_name d /\ de_confidence e = det_conf d.
Proof.
  intros results ds.
  assert (H : ds <> []) by (vm_compute; discriminate).
  split; [exact H|].
  exact (combine_keeps_max_confidence results "Amoxicillin 500mg" "amoxicillin" H).
Defined.

(** C8 (as the code has it).  [_find_closest_match] returns "" for an
    empty candidate list; the first candidate when the drug does not occur
    in the (lower-cased) text; otherwise, among the candidates that occur
    in the text, the one whose first occurrence is nearest to the drug's,
    the earliest one on ties, and "" when no candidate occurs in the
    text. *)
Theorem find_closest_match_nearest drug_name candidates text :
  let pos c := Py.find (Py.lower text) (Py.lower c) in
  let dp := pos drug_name in
  let r := find_closest_match drug_name candidates text in
  match candidates with
  | [] => r = ""
  | c0 :: _ =>
      (dp = (-1)%Z /\ r = c0) \/
      (dp <> (-1)%Z /\
       ((Forall (fun c => pos c = (-1)%Z) candidates /\ r = "") \/
        (exists pre c post,
           candidates = (pre ++ c :: post)%list /\ pos c <> (-1)%Z /\
           Forall (fun x => pos x <> (-1)%Z ->
                            (Z.abs (pos c - dp) < Z.abs (pos x - dp))%Z) pre /\
           Forall (fun x => pos x <> (-1)%Z ->
                            (Z.abs (pos c - dp) <= Z.abs (pos x - dp))%Z) post /\
           r = c)))
  end.
Proof.
  intros pos dp r.
  destruct candidates as [|c0 cs]; [reflexivity|].
  unfold r, find_closest_match; cbv zeta.
  destruct (Z.eqb_spec (Py.find (Py.lower text) (Py.lower drug_name)) (-1)) as [Hd|Hd].
  - left; split; [exact Hd | reflexivity].
  - right; split; [exact Hd|].
    exact (closest_fold_none text dp (c0 :: cs)).
Qed.

(** C8: a drug found in the text with one candidate that does not occur
    in it binds to "", which is not a candidate. *)
Lemma find_closest_match_counterexample :
  find_closest_match "Aspirin" ["5mg"] "Aspirin 500mg" = "" /\
  ~ In (find_closest_match "Aspirin" ["5mg"] "Aspirin 500mg") ["5mg"].
Proof. split; [reflexivity | simpl; intuition discriminate]. Qed.

(** * Further properties of the code *)

(** ** Helper lemmas *)

Module ExtraFacts.
Import DatasetLoader Risk RiskFacts LoaderFacts.

Lemma upper_lower_char c : Py.upper_char (Py.lower_char c) = Py.upper_char c.
Proof. destruct c as [[] [] [] [] [] [] [] []]; reflexivity. Qed.

Lemma upper_lower s : Py.upper (Py.lower s) = Py.upper s.
Proof.
  induction s as [|c s IH]; [reflexivity|].
  unfold Py.upper, Py.lower in *; simpl; rewrite upper_lower_char, IH; reflexivity.
Qed.

Lemma lower_char_space c : Py.is_space c = true -> Py.lower_char c = c.
Proof.
  unfold Py.is_space, Py.lower_char; intros H.
  destruct (Nat.leb_spec 65 (nat_of_ascii c)); [|reflexivity].
  exfalso; apply orb_true_iff in H as [H|H]; apply andb_true_iff in H as [_ H];
    apply Nat.leb_le in H; lia.
Qed.

Lemma all_space_lower s : NER.all_space s = true -> NER.all_space (Py.lower s) = true.
Proof.
  induction s as [|c s IH]; [reflexivity|]; simpl.
  intros H; apply andb_true_iff in H as [Hc Hs].
  unfold Py.lower in *; simpl; rewrite (lower_char_space _ Hc), Hc; simpl; auto.
Qed.

Lemma all_space_strip s : NER.all_space s = true -> Py.strip s = "".
Proof.
  induction s as [|c s IH]; simpl; [reflexivity|].
  intros H; apply andb_true_iff in H as [Hc Hs].
  unfold Py.strip; simpl; rewrite Hc; exact (IH Hs).
Qed.

Lemma rstrip_empty x : Py.rstrip x = "" -> NER.all_space x = true.
Proof.
  induction x as [|c r IH]; simpl; [reflexivity|].
  destruct (Py.is_space c) eqn:Hc; simpl; [|discriminate].
  destruct (String.eqb_spec (Py.rstrip r) "") as [E|E]; [|discriminate].
  intros _; exact (IH E).
Qed.

Lemma lstrip_all_space s : NER.all_space (Py.lstrip s) = true -> NER.all_space s = true.
Proof.
  induction s as [|c r IH]; simpl; [reflexivity|].
  destruct (Py.is_space c) eqn:Hc; simpl; [exact IH | rewrite Hc; auto].
Qed.

Lemma strip_empty_all_space s : Py.strip s = "" -> NER.all_space s = true.
Proof. unfold Py.strip; intros H; apply lstrip_all_space, rstrip_empty, H. Qed.

Lemma check_drug_interaction_comm m h a b :
  check_drug_interaction m h a b = check_drug_interaction m h b a.
Proof.
  unfold check_drug_interaction; destruct h as [|r0 h]; [reflexivity|].
  rewrite (filter_ext (row_matches (get_drugbank_id m a) (get_drugbank_id m b))
                      (row_matches (get_drugbank_id m b) (get_drugbank_id m a)));
    [reflexivity|].
  intros r; apply row_matches_comm.
Qed.

Lemma map_combine_seq {A B} (f : nat * A -> B) (g : A -> B) (l : list A) k :
  (forall i a, f (i, a) = g a) ->
  map f (combine (seq k (length l)) l) = map g l.
Proof.
  intros Hf; revert k; induction l as [|a l IH]; intros k; simpl; [reflexivity|].
  rewrite Hf, IH; reflexivity.
Qed.

Lemma get_interaction_drugs m h names :
  map drug (get_interaction m h names) = map Py.strip names.
Proof.
  unfold get_interaction; rewrite map_map.
  apply map_combine_seq; reflexivity.
Qed.

Lemma get_interaction_ids m h names :
  map drugbank_id (get_interaction m h names) = map (get_drugbank_id m) names.
Proof.
  unfold get_interaction; rewrite map_map.
  apply map_combine_seq; reflexivity.
Qed.

Lemma filter_nil_forall {A} (f : A -> bool) l :
  Forall (fun x => f x = false) l -> filter f l = [].
Proof. induction 1 as [|x l Hx _ IH]; simpl; [reflexivity|]. rewrite Hx; exact IH. Qed.

Lemma overall_risk_eq_spec rs ads :
  calculate_overall_risk rs ads = overall_risk_spec rs ads.
Proof.
  unfold calculate_overall_risk, overall_risk_spec.
  rewrite fold_count_interaction, fold_count_advice; simpl.
  rewrite !ltb_0_add, !filter_length_pos.
  destruct (existsb (interaction_signals ["severe"; "major"]) rs) eqn:E1;
    [reflexivity|].
  destruct (existsb (fun a => String.eqb (risk_level a) "High") ads) eqn:E2;
    [reflexivity|].
  simpl.
  rewrite (existsb_negb_false _ _ _ E1).
  rewrite (existsb_negb_false (fun a => String.eqb (risk_level a) "High")
             (fun a => String.eqb (risk_level a) "Medium") _ E2).
  reflexivity.
Qed.

Lemma In_firstn {A} n (l : list A) x : In x (firstn n l) -> In x l.
Proof.
  revert l; induction n as [|n IH]; intros [|y l]; simpl; try tauto.
  intros [H|H]; [left; exact H | right; apply IH, H].
Qed.

Lemma find_unique {A} (g : A -> string) l x :
  NoDup (map g l) -> In x l ->
  List.find (fun y => String.eqb (g y) (g x)) l = Some x.
Proof.
  induction l as [|y l IH]; simpl; [tauto|].
  intros Hnd Hin; inversion Hnd as [|? ? Hnot Hnd']; subst.
  destruct Hin as [<-|Hin]; [rewrite String.eqb_refl; reflexivity|].
  destruct (String.eqb_spec (g y) (g x)) as [E|E]; [|auto].
  exfalso; apply Hnot; rewrite E; apply in_map, Hin.
Qed.

Lemma in_combine_map_eq {A B C} (f : A -> C) (g : B -> C) l1 l2 a b :
  map f l1 = map g l2 -> In (a, b) (combine l1 l2) -> f a = g b.
Proof.
  revert l2; induction l1 as [|a1 l1 IH]; intros [|b2 l2]; simpl; try tauto;
    try discriminate.
  intros Heq; injection Heq as Hab Hl.
  intros [E|Hin]; [injection E as <- <-; exact Hab | exact (IH _ Hl Hin)].
Qed.

Lemma map_fst_combine {A B} (l1 : list A) (l2 : list B) :
  length l1 = length l2 -> map fst (combine l1 l2) = l1.
Proof.
  revert l2; induction l1 as [|a l1 IH]; intros [|b l2]; simpl; try discriminate;
    [reflexivity|].
  intros H; injection H as H; rewrite IH; auto.
Qed.

Lemma map_snd_combine {A B} (l1 : list A) (l2 : list B) :
  length l1 = length l2 -> map snd (combine l1 l2) = l2.
Proof.
  revert l2; induction l1 as [|a l1 IH]; intros [|b l2]; simpl; try discriminate;
    [reflexivity|].
  intros H; injection H as H; rewrite IH; auto.
Qed.

Lemma find_all_false {A} (f : A -> bool) l :
  Forall (fun x => f x = false) l -> List.find f l = None.
Proof.
  induction 1 as [|x l Hx _ IH]; simpl; [reflexivity|]; rewrite Hx; exact IH.
Qed.

Lemma existsb_summary_high rs :
  existsb (fun s => String.eqb (Main.sm_severity s) "High") (Main.summarize rs)
  = existsb (interaction_signals ["severe"; "major"]) rs.
Proof.
  unfold Main.summarize; induction rs as [|r rs IH]; simpl; [reflexivity|].
  unfold interaction_signals at 1; simpl.
  destruct (String.eqb (interaction r) "None"); simpl; [exact IH|].
  rewrite <- IH; unfold extract_severity.
  destruct (Py.contains "severe" (Py.lower (interaction r)));
  destruct (Py.contains "major" (Py.lower (interaction r)));
  destruct (Py.contains "moderate" (Py.lower (interaction r)));
  destruct (Py.contains "warning" (Py.lower (interaction r))); reflexivity.
Qed.

Lemma existsb_summary_medium rs :
  existsb (interaction_signals ["severe"; "major"]) rs = false ->
  existsb (fun s => String.eqb (Main.sm_severity s) "Medium") (Main.summarize rs)
  = existsb (interaction_signals ["moderate"; "warning"]) rs.
Proof.
  unfold Main.summarize; induction rs as [|r rs IH]; simpl; [reflexivity|].
  unfold interaction_signals at 1 3; simpl.
  destruct (String.eqb (interaction r) "None"); simpl; [exact IH|].
  unfold extract_severity.
  destruct (Py.contains "severe" (Py.lower (interaction r)));
  destruct (Py.contains "major" (Py.lower (interaction r))); simpl;
    try discriminate; intros H;
  destruct (Py.contains "moderate" (Py.lower (interaction r)));
  destruct (Py.contains "warning" (Py.lower (interaction r))); simpl; auto.
Qed.

Lemma alternative_title k alt :
  DatasetLoader.dict_get k Main.alternative_map = Some alt ->
  In (Py.title alt) ["Ibuprofen"; "Paracetamol"; "Naproxen"; "Rivaroxaban"; "Glipizide"].
Proof.
  unfold Main.alternative_map; simpl.
  repeat match goal with
         | |- context [String.eqb ?a ?b] => destruct (String.eqb a b)
         end; intros H; try discriminate; injection H as <-; simpl; tauto.
Qed.

End ExtraFacts.

(** ** dataset_loader.py *)

Import ExtraFacts.

(** A single drug is never reported as interacting, whatever the table
    holds (also when it is empty). *)
Theorem get_interaction_single_drug m h d :
  get_interaction m h [d] =
  [ {| drug := Py.strip d; drugbank_id := get_drugbank_id m d;
       interaction := "None" |} ].
Proof. reflexivity. Qed.

(** For two drugs the two reports mirror each other: both are "None", or
    the first reads "with <second>: X" and the second "with <first>: X"
    for the same lookup answer X. *)
Theorem get_interaction_pair_mirrored m h a b :
  let x := check_drug_interaction m h a b in
  map interaction (get_interaction m h [a; b]) =
  if String.eqb x "None" then ["None"; "None"]
  else ["with " ++ b ++ ": " ++ x; "with " ++ a ++ ": " ++ x].
Proof.
  intros x; unfold get_interaction, interactions_for; simpl.
  rewrite (check_drug_interaction_comm m h b a); fold x.
  destruct (String.eqb x "None"); reflexivity.
Qed.

(** Lookups ignore letter case on ASCII names: names equal up to case
    resolve to the same identifier (also the [DB_UNKNOWN_] one, built with
    [upper()]), and interaction checks on them give the same answer.  The
    names must be ASCII: beyond it Python's [lower()] and [upper()] do not
    commute this way (the sharp s, the Kelvin sign). *)
Theorem lookups_case_insensitive m h a a' b b' :
  Py.isascii a = true -> Py.isascii a' = true ->
  Py.isascii b = true -> Py.isascii b' = true ->
  Py.lower a = Py.lower a' -> Py.lower b = Py.lower b' ->
  get_drugbank_id m a = get_drugbank_id m a' /\
  check_drug_interaction m h a b = check_drug_interaction m h a' b'.
Proof.
  intros _ _ _ _.
  assert (Hid : forall x y, Py.lower x = Py.lower y ->
                get_drugbank_id m x = get_drugbank_id m y).
  { intros x y Hxy; unfold get_drugbank_id; rewrite Hxy.
    rewrite <- (upper_lower x), <- (upper_lower y), Hxy; reflexivity. }
  intros Ha Hb; split; [exact (Hid _ _ Ha)|].
  unfold check_drug_interaction; rewrite (Hid _ _ Ha), (Hid _ _ Hb); reflexivity.
Qed.

Lemma lookups_case_insensitive_witness :
  Py.isascii "Warfarin" = true /\ Py.isascii "WARFARIN" = true /\
  Py.isascii "aspirin" = true /\ Py.isascii "Aspirin" = true /\
  Py.lower "Warfarin" = Py.lower "WARFARIN" /\ Py.lower "aspirin" = Py.lower "Aspirin" /\
  get_drugbank_id [("aspirin", "DB00945")] "Warfarin"
    = get_drugbank_id [("aspirin", "DB00945")] "WARFARIN" /\
  check_drug_interaction [("aspirin", "DB00945")]
    [ {| drug1_drugbank_id := "DB_UNKNOWN_WARFARIN"; drug2_drugbank_id := "DB00945";
         severity := Some "Major"; description := Some "Bleeding risk" |} ]
    "Warfarin" "aspirin"
  = check_drug_interaction [("aspirin", "DB00945")]
    [ {| drug1_drugbank_id := "DB_UNKNOWN_WARFARIN"; drug2_drugbank_id := "DB00945";
         severity := Some "Major"; description := Some "Bleeding risk" |} ]
    "WARFARIN" "Aspirin".
Proof.
  assert (H1 : Py.isascii "Warfarin" = true) by reflexivity.
  assert (H2 : Py.isascii "WARFARIN" = true) by reflexivity.
  assert (H3 : Py.isascii "aspirin" = true) by reflexivity.
  assert (H4 : Py.isascii "Aspirin" = true) by reflexivity.
  assert (Ha : Py.lower "Warfarin" = Py.lower "WARFARIN") by reflexivity.
  assert (Hb : Py.lower "aspirin" = Py.lower "Aspirin") by reflexivity.
  repeat (split; [assumption|]).
  exact (lookups_case_insensitive [("aspirin", "DB00945")] _ _ _ _ _ H1 H2 H3 H4 Ha Hb).
Defined.

(** A blank name (empty or all whitespace) resolves to the identifier of
    the first mapping entry, as soon as no later entry has the empty key:
    the empty normalised name is a substring of every mapped name. *)
Theorem get_drugbank_id_blank_name k v rest name :
  NER.all_space name = true -> ~ In "" (map fst rest) ->
  get_drugbank_id ((k, v) :: rest) name = v.
Proof.
  intros Hb Hn; unfold get_drugbank_id.
  rewrite (all_space_strip _ (all_space_lower _ Hb)); simpl.
  destruct k as [|c k']; [reflexivity|].
  rewrite (dict_get_notin _ _ Hn); reflexivity.
Qed.

Lemma get_drugbank_id_blank_name_witness :
  NER.all_space "   " = true /\ ~ In "" (map fst [("warfarin", "DB00682")]) /\
  get_drugbank_id [("aspirin", "DB00945"); ("warfarin", "DB00682")] "   " = "DB00945".
Proof.
  assert (Hb : NER.all_space "   " = true) by reflexivity.
  assert (Hn : ~ In "" (map fst [("warfarin", "DB00682")]))
    by (simpl; intuition discriminate).
  split; [exact Hb|]; split; [exact Hn|].
  exact (get_drugbank_id_blank_name "aspirin" "DB00945" _ "   " Hb Hn).
Defined.

(** If reading either data file raises, [load_datasets] still returns,
    with an empty table and an empty mapping, even when the other file was
    read; [get_dataset_info] then reports nothing loaded and every
    interaction check answers "Dataset not available". *)
Theorem load_datasets_failure_resets hoddi_file mapping_file e :
  hoddi_file = Some (Exc.Raise e) \/ mapping_file = Some (Exc.Raise e) ->
  match Loading.load_datasets hoddi_file mapping_file with
  | Exc.Return (h, m) =>
      h = [] /\ m = [] /\
      Loading.get_dataset_info h m =
        {| Loading.hoddi_loaded := false; Loading.hoddi_records := 0;
           Loading.drug_mapping_loaded := false; Loading.mapped_drugs := 0 |} /\
      (forall a b, check_drug_interaction m h a b = "Dataset not available")
  | Exc.Raise _ => False
  end.
Proof.
  intros [-> | ->]; unfold Loading.load_datasets; simpl.
  - repeat split; reflexivity.
  - destruct hoddi_file as [[hd|e']|]; simpl; repeat split; reflexivity.
Qed.

Lemma load_datasets_failure_resets_witness :
  let row := {| drug1_drugbank_id := "DB00945"; drug2_drugbank_id := "DB00682";
                severity := Some "Major"; description := Some "Bleeding risk" |} in
  let bad := Some (@Exc.Raise drug_mapping (Exc.OtherException "JSONDecodeError")) in
  (Some (Exc.Return [row]) = Some (Exc.Raise (Exc.OtherException "JSONDecodeError"))
   \/ bad = Some (Exc.Raise (Exc.OtherException "JSONDecodeError"))) /\
  match Loading.load_datasets (Some (Exc.Return [row])) bad with
  | Exc.Return (h, m) =>
      h = [] /\ m = [] /\
      Loading.get_dataset_info h m =
        {| Loading.hoddi_loaded := false; Loading.hoddi_records := 0;
           Loading.drug_mapping_loaded := false; Loading.mapped_drugs := 0 |} /\
      (forall a b, check_drug_interaction m h a b = "Dataset not available")
  | Exc.Raise _ => False
  end.
Proof.
  intros row bad.
  assert (H : Some (Exc.Return [row]) = Some (Exc.Raise (Exc.OtherException "JSONDecodeError"))
              \/ bad = Some (Exc.Raise (Exc.OtherException "JSONDecodeError")))
    by (right; reflexivity).
  split; [exact H|].
  exact (load_datasets_failure_resets _ _ _ H).
Defined.

(** ** main.py *)

Import Main.

(** For an adult (18 to 65 inclusive) every dosage advice is Low and keeps
    the current dosage, so the advice adds nothing to the overall risk:
    the risk is the one the interactions alone give. *)
Theorem adult_advice_adds_no_risk rs drugs age :
  (18 <= age <= 65)%Z ->
  Forall (fun a => risk_level a = "Low" /\ recommended_dosage a = current_dosage a)
    (get_age_based_dosage_advice drugs age) /\
  calculate_overall_risk rs (get_age_based_dosage_advice drugs age)
  = calculate_overall_risk rs [].
Proof.
  intros Hage.
  assert (Hadv : forall d, age_based_advice age d =
            {| advice_drug := di_name d; current_dosage := di_dosage d;
               recommended_dosage := di_dosage d;
               advice := "Standard adult dosage appropriate"; risk_level := "Low" |}).
  { intros d; unfold age_based_advice.
    destruct (Z.ltb_spec age 18); [lia|]; destruct (Z.ltb_spec 65 age); [lia|].
    reflexivity. }
  assert (Hall : Forall (fun a => risk_level a = "Low" /\ recommended_dosage a = current_dosage a)
                   (get_age_based_dosage_advice drugs age)).
  { unfold get_age_based_dosage_advice; apply Forall_map, Forall_forall.
    intros d _; rewrite Hadv; split; reflexivity. }
  split; [exact Hall|].
  unfold calculate_overall_risk.
  destruct (fold_left count_interaction rs (0, 0)) as [hc mc].
  rewrite fold_count_advice.
  rewrite (filter_nil_forall (fun a => String.eqb (risk_level a) "High")).
  2:{ eapply Forall_impl; [|exact Hall]; intros a [-> _]; reflexivity. }
  rewrite (filter_nil_forall (fun a => negb (String.eqb (risk_level a) "High")
                                       && String.eqb (risk_level a) "Medium")).
  2:{ eapply Forall_impl; [|exact Hall]; intros a [-> _]; reflexivity. }
  simpl; rewrite !Nat.add_0_r; reflexivity.
Qed.

Lemma adult_advice_adds_no_risk_witness :
  (18 <= 40 <= 65)%Z /\
  calculate_overall_risk []
    (get_age_based_dosage_advice
       [ {| di_name := "Amoxicillin"; di_dosage := "1000mg"; di_frequency := "3/day";
            di_drugbank_id := None; di_interaction := Some "None" |} ] 40%Z)
  = calculate_overall_risk [] [].
Proof.
  assert (H : (18 <= 40 <= 65)%Z) by lia.
  split; [exact H|].
  exact (proj2 (adult_advice_adds_no_risk [] _ 40%Z H)).
Defined.

(** For a patient under 18 every dosage advice is Medium or High, so as
    soon as one drug is listed the overall risk is never Low. *)
Theorem pediatric_risk_never_low rs drugs age :
  (age < 18)%Z -> drugs <> [] ->
  Forall (fun a => risk_level a = "Medium" \/ risk_level a = "High")
    (get_age_based_dosage_advice drugs age) /\
  calculate_overall_risk rs (get_age_based_dosage_advice drugs age) <> "Low".
Proof.
  intros Hage Hne.
  assert (Hadv : forall d, risk_level (age_based_advice age d) = "Medium"
                        \/ risk_level (age_based_advice age d) = "High").
  { intros d; unfold age_based_advice.
    destruct (Z.ltb_spec age 18); [|lia].
    destruct (Py.contains "500mg" (di_dosage d)); [left; reflexivity|].
    destruct (Py.contains "1000mg" (di_dosage d)); [right|left]; reflexivity. }
  split.
  - unfold get_age_based_dosage_advice; apply Forall_map, Forall_forall; auto.
  - rewrite overall_risk_eq_spec; unfold overall_risk_spec.
    destruct drugs as [|d ds]; [contradiction|].
    unfold get_age_based_dosage_advice; cbn [map existsb].
    destruct (Hadv d) as [E|E]; rewrite E; cbn [String.eqb Ascii.eqb Bool.eqb existsb].
    + rewrite !orb_true_r.
      destruct (_ || _); discriminate.
    + rewrite orb_true_r; discriminate.
Qed.

Lemma pediatric_risk_never_low_witness :
  let drugs := [ {| di_name := "Paracetamol"; di_dosage := "250mg"; di_frequency := "2/day";
                    di_drugbank_id := None; di_interaction := Some "None" |} ] in
  (8 < 18)%Z /\ drugs <> [] /\
  calculate_overall_risk [] (get_age_based_dosage_advice drugs 8%Z) <> "Low".
Proof.
  intros drugs.
  assert (H1 : (8 < 18)%Z) by lia.
  assert (H2 : drugs <> []) by discriminate.
  split; [exact H1|]; split; [exact H2|].
  exact (proj2 (pediatric_risk_never_low [] drugs 8%Z H1 H2)).
Defined.

(** A dosage advice is High exactly for a patient under 18 whose dosage
    mentions "1000mg" but not "500mg"; adults and patients over 65 never
    get a High advice. *)
Theorem advice_high_only_pediatric age d :
  risk_level (age_based_advice age d) = "High" <->
  (age < 18)%Z /\ Py.contains "500mg" (di_dosage d) = false
  /\ Py.contains "1000mg" (di_dosage d) = true.
Proof.
  unfold age_based_advice.
  destruct (Z.ltb_spec age 18) as [Hlt|Hge].
  - destruct (Py.contains "500mg" (di_dosage d));
      [|destruct (Py.contains "1000mg" (di_dosage d))]; simpl;
      split; intros Hr; try discriminate; try (repeat split; assumption);
      destruct Hr as (_ & H1 & H2); discriminate.
  - destruct (Z.ltb 65 age);
      [destruct (Py.contains "1000mg" (di_dosage d));
       [|destruct (Py.contains "500mg" (di_dosage d) && Py.contains "3/day" (di_frequency d))]|];
      simpl; split; intros Hr; try discriminate; lia.
Qed.

(** [_suggest_alternatives] returns at most two alternatives; each one
    comes from an interaction result whose text mentions "severe" (any
    case), names that result's drug, quotes its interaction text, and
    proposes one of Ibuprofen, Paracetamol, Naproxen, Rivaroxaban and
    Glipizide. *)
Theorem suggest_alternatives_sound drugs rs :
  length (suggest_alternatives drugs rs) <= 2 /\
  Forall (fun a => exists r, In r rs /\ original_drug a = drug r /\
            Py.contains "severe" (Py.lower (interaction r)) = true /\
            reason a = "Safer alternative due to interaction risk: " ++ interaction r /\
            In (alternative a)
              ["Ibuprofen"; "Paracetamol"; "Naproxen"; "Rivaroxaban"; "Glipizide"])
    (suggest_alternatives drugs rs).
Proof.
  unfold suggest_alternatives; split; [apply firstn_le_length|].
  apply Forall_forall; intros a Ha; apply In_firstn, in_flat_map in Ha as [r [Hr Ha]].
  exists r; split; [exact Hr|].
  destruct (negb (String.eqb (interaction r) "None")
            && Py.contains "severe" (Py.lower (interaction r))) eqn:E; [|contradiction].
  apply andb_true_iff in E as [_ E].
  destruct (DatasetLoader.dict_get (Py.lower (drug r)) alternative_map) as [alt|] eqn:Ealt;
    [|contradiction].
  destruct Ha as [<-|[]]; simpl.
  repeat split; auto.
  exact (alternative_title _ _ Ealt).
Qed.

(** No alternative is suggested unless some interaction text mentions
    "severe": an interaction rated High only through "major" gets none. *)
Theorem no_severe_no_alternatives drugs rs :
  Forall (fun r => Py.contains "severe" (Py.lower (interaction r)) = false) rs ->
  suggest_alternatives drugs rs = [].
Proof.
  intros H; unfold suggest_alternatives.
  induction H as [|r rs Hr _ IH]; [reflexivity|].
  simpl; rewrite Hr, andb_false_r; exact IH.
Qed.

Lemma no_severe_no_alternatives_witness :
  let rs := [ {| drug := "warfarin"; drugbank_id := "DB00682";
                 interaction := "with aspirin: Major: Bleeding risk" |} ] in
  Forall (fun r => Py.contains "severe" (Py.lower (interaction r)) = false) rs /\
  suggest_alternatives [] rs = [].
Proof.
  intros rs.
  assert (H : Forall (fun r => Py.contains "severe" (Py.lower (interaction r)) = false) rs)
    by (repeat constructor).
  split; [exact H|].
  exact (no_severe_no_alternatives [] rs H).
Defined.

(** The overall risk of an analysis agrees with what the same response
    reports: High if a reported interaction has severity High or a dosage
    advice is High, else Medium if one of them is Medium, else Low. *)
Theorem response_risk_matches_report m h now age extracted :
  let resp := analyse_drugs m h now age extracted in
  overall_risk resp =
    if existsb (fun s => String.eqb (sm_severity s) "High") (interactions resp)
       || existsb (fun a => String.eqb (risk_level a) "High") (advice_list resp)
    then "High"
    else if existsb (fun s => String.eqb (sm_severity s) "Medium") (interactions resp)
            || existsb (fun a => String.eqb (risk_level a) "Medium") (advice_list resp)
    then "Medium"
    else "Low".
Proof.
  intros resp; unfold resp, analyse_drugs; cbn [overall_risk interactions advice_list].
  set (rs := get_interaction m h (map Api.x_name extracted)).
  set (ads := get_age_based_dosage_advice (map (enhance rs) extracted) age).
  rewrite overall_risk_eq_spec; unfold overall_risk_spec.
  rewrite existsb_summary_high.
  destruct (existsb (interaction_signals ["severe"; "major"]) rs) eqn:E; [reflexivity|].
  rewrite (existsb_summary_medium _ E); reflexivity.
Qed.

(** When the extracted names carry no surrounding whitespace and are
    distinct up to case, each enhanced drug carries its own DrugBank
    identifier and its own interaction report. *)
Theorem enhanced_drugs_carry_own_results m h now age extracted :
  Forall (fun d => Py.strip (Api.x_name d) = Api.x_name d) extracted ->
  NoDup (map (fun d => Py.lower (Api.x_name d)) extracted) ->
  let resp := analyse_drugs m h now age extracted in
  map (fun e => (di_name e, di_drugbank_id e)) (extracted_drugs resp)
    = map (fun d => (Api.x_name d, Some (get_drugbank_id m (Api.x_name d)))) extracted /\
  map di_interaction (extracted_drugs resp)
    = map (fun r => Some (interaction r)) (get_interaction m h (map Api.x_name extracted)).
Proof.
  intros Hs Hnd resp; unfold resp, analyse_drugs; cbn [extracted_drugs].
  set (names := map Api.x_name extracted).
  set (rs := get_interaction m h names).
  assert (Hdr : map drug rs = map Api.x_name extracted).
  { unfold rs; rewrite get_interaction_drugs; unfold names; rewrite map_map.
    apply map_ext_in; intros d Hd; rewrite Forall_forall in Hs; apply Hs, Hd. }
  assert (Hlen : length extracted = length rs).
  { rewrite <- (length_map drug rs), Hdr, length_map; reflexivity. }
  assert (Hnd' : NoDup (map (fun r => Py.lower (drug r)) rs)).
  { rewrite <- map_map, Hdr, map_map; exact Hnd. }
  assert (Hen : map (enhance rs) extracted =
                map (fun p => {| di_name := Api.x_name (fst p); di_dosage := Api.x_dosage (fst p);
                                 di_frequency := Api.x_frequency (fst p);
                                 di_drugbank_id := Some (drugbank_id (snd p));
                                 di_interaction := Some (interaction (snd p)) |})
                    (combine extracted rs)).
  { rewrite <- (map_fst_combine extracted rs Hlen) at 1; rewrite map_map.
    apply map_ext_in; intros [d r] Hin; cbn [fst snd].
    pose proof (in_combine_map_eq _ _ _ _ _ _ (eq_sym Hdr) Hin) as Hx.
    unfold enhance; rewrite Hx.
    rewrite (find_unique (fun r => Py.lower (drug r)) rs r Hnd' (in_combine_r _ _ _ _ Hin)).
    reflexivity. }
  rewrite Hen, !map_map; cbn.
  split.
  - transitivity (map (fun p => (Api.x_name (fst p), Some (drugbank_id (snd p))))
                      (combine extracted rs)); [reflexivity|].
    assert (Hid : map drugbank_id rs = map (fun d => get_drugbank_id m (Api.x_name d)) extracted).
    { unfold rs; rewrite get_interaction_ids; unfold names; rewrite map_map; reflexivity. }
    rewrite <- (map_fst_combine extracted rs Hlen) at 2; rewrite map_map.
    apply map_ext_in; intros [d r] Hin; cbn [fst snd].
    rewrite (in_combine_map_eq _ _ _ _ _ _ (eq_sym Hid) Hin); reflexivity.
  - transitivity (map (fun p => Some (interaction (snd p))) (combine extracted rs));
      [reflexivity|].
    rewrite <- (map_map snd (fun r => Some (interaction r))).
    rewrite map_snd_combine by exact Hlen; reflexivity.
Qed.

Lemma enhanced_drugs_carry_own_results_witness :
  let extracted := [ {| Api.x_name := "Aspirin"; Api.x_dosage := "81mg"; Api.x_frequency := "1/day" |};
                     {| Api.x_name := "Warfarin"; Api.x_dosage := "5mg"; Api.x_frequency := "1/day" |} ] in
  let m := [("aspirin", "DB00945"); ("warfarin", "DB00682")] in
  let h := [ {| drug1_drugbank_id := "DB00682"; drug2_drugbank_id := "DB00945";
                severity := Some "Major"; description := Some "Bleeding risk" |} ] in
  Forall (fun d => Py.strip (Api.x_name d) = Api.x_name d) extracted /\
  NoDup (map (fun d => Py.lower (Api.x_name d)) extracted) /\
  let resp := analyse_drugs m h "2024-03-20T10:00:00" 70%Z extracted in
  map (fun e => (di_name e, di_drugbank_id e)) (extracted_drugs resp)
    = map (fun d => (Api.x_name d, Some (get_drugbank_id m (Api.x_name d)))) extracted /\
  map di_interaction (extracted_drugs resp)
    = map (fun r => Some (interaction r)) (get_interaction m h (map Api.x_name extracted)).
Proof.
  intros extracted m h.
  assert (H1 : Forall (fun d => Py.strip (Api.x_name d) = Api.x_name d) extracted)
    by (repeat constructor).
  assert (H2 : NoDup (map (fun d => Py.lower (Api.x_name d)) extracted))
    by (simpl; repeat constructor; simpl; intuition discriminate).
  split; [exact H1|]; split; [exact H2|].
  exact (enhanced_drugs_carry_own_results m h "2024-03-20T10:00:00" 70%Z extracted H1 H2).
Defined.

(** An extracted name whose lower-cased form differs from that of every
    stripped name in the list (a name with surrounding whitespace, say)
    matches no interaction result: the enhanced drug gets no DrugBank
    identifier and the interaction "None", whatever the table says. *)
Theorem enhance_misses_unmatched_name m h names d :
  Forall (fun n => Py.lower (Py.strip n) <> Py.lower (Api.x_name d)) names ->
  enhance (get_interaction m h names) d =
  {| di_name := Api.x_name d; di_dosage := Api.x_dosage d;
     di_frequency := Api.x_frequency d; di_drugbank_id := None;
     di_interaction := Some "None" |}.
Proof.
  intros Hn; unfold enhance.
  rewrite find_all_false; [reflexivity|].
  apply Forall_forall; intros r Hr.
  assert (Hd : In (drug r) (map Py.strip names)).
  { rewrite <- (get_interaction_drugs m h); apply in_map; exact Hr. }
  apply in_map_iff in Hd as [n [Hrn Hin]].
  rewrite Forall_forall in Hn; specialize (Hn n Hin).
  rewrite <- Hrn; apply String.eqb_neq; exact Hn.
Qed.

Lemma enhance_misses_unmatched_name_witness :
  let names := [" Aspirin"; "Warfarin"] in
  let d := {| Api.x_name := " Aspirin"; Api.x_dosage := "81mg"; Api.x_frequency := "1/day" |} in
  let m := [("aspirin", "DB00945"); ("warfarin", "DB00682")] in
  let h := [ {| drug1_drugbank_id := "DB00682"; drug2_drugbank_id := "DB00945";
                severity := Some "Major"; description := Some "Bleeding risk" |} ] in
  Forall (fun n => Py.lower (Py.strip n) <> Py.lower (Api.x_name d)) names /\
  enhance (get_interaction m h names) d =
  {| di_name := " Aspirin"; di_dosage := "81mg"; di_frequency := "1/day";
     di_drugbank_id := None; di_interaction := Some "None" |}.
Proof.
  intros names d m h.
  assert (H : Forall (fun n => Py.lower (Py.strip n) <> Py.lower (Api.x_name d)) names)
    by (repeat constructor; vm_compute; discriminate).
  split; [exact H|].
  exact (enhance_misses_unmatched_name m h names d H).
Defined.

(** With the analysis pipeline in place, the text endpoint either returns
    the analysis of a non-empty extracted drug list, or fails with status
    500; it never answers with any other error status. *)
Theorem text_endpoint_outcomes extract m h now age text :
  match Api.analyze_prescription AnalysisResponse extract
          (fun a ds => Exc.Return (analyse_drugs m h now (Z.of_nat a) ds)) age text with
  | Exc.Return resp =>
      exists ds, extract text = Exc.Return (Some ds) /\ ds <> [] /\
                 resp = analyse_drugs m h now (Z.of_nat age) ds
  | Exc.Raise e => exists detail, e = Exc.HTTPException 500 detail
  end.
Proof.
  unfold Api.analyze_prescription, Exc.try_except, Exc.bind.
  destruct (extract text) as [[ds|]|e]; simpl; [|eexists; reflexivity|eexists; reflexivity].
  destruct ds as [|d ds]; simpl; [eexists; reflexivity|].
  exists (d :: ds); repeat split; [discriminate].
Qed.

(** The image endpoint answers 400 before any drug extraction when the
    upload is not declared as an image, or when the OCR text has fewer than
    ten characters once stripped: the answer does not depend on the
    extractor or the later steps. *)
Theorem image_endpoint_early_400 IAR age content_type ocr :
  (match content_type with Some c => Py.prefixb "image/" c | None => false end = false
   \/ exists txt, ocr = Exc.Return txt /\ String.length (Py.strip txt) < 10) ->
  exists detail, forall extract build,
    Api.analyze_prescription_image IAR extract build age content_type ocr
    = Exc.Raise (Exc.HTTPException 400 detail).
Proof.
  intros [H | (txt & -> & Hl)].
  - eexists; intros extract build; unfold Api.analyze_prescription_image.
    rewrite H; reflexivity.
  - apply Nat.ltb_lt in Hl.
    destruct (match content_type with Some c => Py.prefixb "image/" c | None => false end) eqn:Hc;
      eexists; intros extract build; unfold Api.analyze_prescription_image; rewrite Hc;
      [simpl; rewrite Hl|]; reflexivity.
Qed.

Lemma image_endpoint_early_400_witness :
  (match Some "text/plain" with Some c => Py.prefixb "image/" c | None => false end = false
   \/ exists txt, @Exc.Return string "Rx" = Exc.Return txt /\ String.length (Py.strip txt) < 10) /\
  exists detail, forall (extract : string -> Exc.outcome (option (list Api.extracted_drug)))
                        (build : nat -> string -> list Api.extracted_drug -> Exc.outcome unit),
    Api.analyze_prescription_image unit extract build 30 (Some "text/plain") (Exc.Return "Rx")
    = Exc.Raise (Exc.HTTPException 400 detail).
Proof.
  assert (H : match Some "text/plain" with Some c => Py.prefixb "image/" c | None => false end = false
              \/ exists txt, @Exc.Return string "Rx" = Exc.Return txt
                             /\ String.length (Py.strip txt) < 10)
    by (left; reflexivity).
  split; [exact H|].
  exact (image_endpoint_early_400 unit 30 (Some "text/plain") (Exc.Return "Rx") H).
Defined.

(** On the image endpoint an OCR failure reaches the client as a 500
    "Image analysis failed: <message>". *)
Theorem image_endpoint_ocr_failure_500 IAR extract build age content_type msg :
  match content_type with Some c => Py.prefixb "image/" c | None => false end = true ->
  Api.analyze_prescription_image IAR extract build age content_type
    (Exc.Raise (Exc.RuntimeError msg))
  = Exc.Raise (Exc.HTTPException 500 ("Image analysis failed: " ++ msg)).
Proof.
  intros H; unfold Api.analyze_prescription_image; rewrite H; reflexivity.
Qed.

Lemma image_endpoint_ocr_failure_500_witness :
  match Some "image/png" with Some c => Py.prefixb "image/" c | None => false end = true /\
  Api.analyze_prescription_image unit (fun _ => Exc.Return None) (fun _ _ _ => Exc.Return tt)
    30 (Some "image/png")
    (Exc.Raise (Exc.RuntimeError "OCR extraction failed: Failed to extract text using all available OCR methods"))
  = Exc.Raise (Exc.HTTPException 500
      ("Image analysis failed: " ++ "OCR extraction failed: Failed to extract text using all available OCR methods")).
Proof.
  assert (H : match Some "image/png" with Some c => Py.prefixb "image/" c | None => false end = true)
    by reflexivity.
  split; [exact H|].
  exact (image_endpoint_ocr_failure_500 unit _ _ 30 (Some "image/png") _ H).
Defined.

(** ** Helpers for medical_nlp_extractor.py *)

Module NLPFacts.
Import Fusion FusionFacts MedicalNLP Exc.

Lemma dict_set_keys {V} k (v : V) d k' :
  In k' (map fst (dict_set k v d)) <-> k' = k \/ In k' (map fst d).
Proof.
  induction d as [|[k1 v1] d IH]; simpl.
  - split; (intros [E|[]]; left; symmetry; exact E).
  - destruct (String.eqb_spec k k1) as [<-|Hne]; simpl.
    + split; intros [E|E]; auto.
    + rewrite IH; split; intros [E|[E|E]]; auto.
Qed.

Lemma dict_set_nodup {V} k (v : V) d :
  NoDup (map fst d) -> NoDup (map fst (dict_set k v d)).
Proof.
  induction d as [|[k1 v1] d IH]; simpl; intros Hnd.
  - constructor; [intros []|constructor].
  - inversion Hnd as [|? ? Hn Hnd']; subst.
    destruct (String.eqb_spec k k1) as [<-|Hne]; simpl.
    + constructor; assumption.
    + constructor; [|exact (IH Hnd')].
      rewrite dict_set_keys; intros [E|E]; [congruence | contradiction].
Qed.

Lemma fold_record_nodup ds acc :
  NoDup (map fst acc) -> NoDup (map fst (fold_left record_detection ds acc)).
Proof.
  revert acc; induction ds as [|d ds IH]; intros acc Hacc; simpl; [exact Hacc|].
  apply IH; unfold record_detection, record_drug.
  destruct (dict_get (name_key (det_name d)) acc) as [old|];
    [destruct (Qltb (s_confidence old) (det_conf d))|];
    try apply dict_set_nodup; assumption.
Qed.

Lemma find_closest_match_result n l text :
  find_closest_match n l text = "" \/ In (find_closest_match n l text) l.
Proof.
  unfold find_closest_match; destruct l as [|c0 l']; [left; reflexivity|].
  destruct (Z.eqb (Py.find (Py.lower text) (Py.lower n)) (-1)); [right; left; reflexivity|].
  destruct (closest_fold_none text (Py.find (Py.lower text) (Py.lower n)) (c0 :: l'))
    as [[_ Hr]|(pre & c & post & Hs & _ & _ & _ & Hr)].
  - left; exact Hr.
  - right; rewrite Hr, Hs; apply in_or_app; right; left; reflexivity.
Qed.

Lemma find_skip {A} (f : A -> bool) l1 x l2 :
  f x = false -> List.find f (l1 ++ x :: l2) = List.find f (l1 ++ l2).
Proof.
  intros Hx; induction l1 as [|a l1 IH]; simpl; [rewrite Hx; reflexivity|].
  destruct (f a); [reflexivity | exact IH].
Qed.

Lemma combine_skip_keyless l1 r l2 text :
  r_drugs r = None -> r_drug_candidates r = None -> r_results r = None ->
  r_method r <> Some "Pattern Matching" ->
  combine_drug_extractions (l1 ++ r :: l2) text = combine_drug_extractions (l1 ++ l2) text.
Proof.
  intros Hd Hc Hr Hm; unfold combine_drug_extractions.
  rewrite !fold_left_app; cbn [fold_left].
  replace (process_result (fold_left process_result l1 []) r)
    with (fold_left process_result l1 [])
    by (unfold process_result; rewrite Hd, Hc, Hr; reflexivity).
  rewrite (find_skip _ l1 r l2); [reflexivity|].
  destruct (r_method r) as [m|]; [|reflexivity].
  apply String.eqb_neq; congruence.
Qed.

Lemma extract_medical_entities_returns {A} pi di bio pub (wat : option (outcome A))
    ner pats text :
  match extract_medical_entities pi di bio pub wat ner pats text with
  | Return ex =>
      md_drugs ex = combine_drug_extractions
        (opt_list (extract_with_biobert bio) ++ opt_list (extract_with_pubmedbert pub)
         ++ opt_list (extract_with_watson_nlu wat) ++ opt_list (extract_with_drug_ner ner)
         ++ [extract_with_patterns pats])%list text /\
      md_extraction_method ex =
        match ner with
        | Some (Return _) => "Drug NER"
        | _ => match pub with
               | Some (Return _) => "PubMedBERT"
               | _ => match wat with
                      | Some (Return _) => "Watson NLU"
                      | _ => match bio with
                             | Some (Return _) => "BioBERT"
                             | _ => "Pattern Matching"
                             end
                      end
               end
        end /\
      (6 # 10 <= md_confidence_score ex <= 85 # 100)%Q
  | Raise _ => False
  end.
Proof.
  unfold extract_medical_entities.
  destruct bio as [[?|?]|], pub as [[?|?]|], wat as [[?|?]|], ner as [[?|?]|];
    cbn - [combine_drug_extractions];
    (split; [reflexivity|]); (split; [reflexivity|]);
    split; apply Qle_bool_iff; vm_compute; reflexivity.
Qed.

End NLPFacts.

(** ** medical_nlp_extractor.py *)

Import Fusion MedicalNLP NLPFacts.

(** [_combine_drug_extractions] never returns two entities whose names
    agree up to case and surrounding whitespace. *)
Theorem combine_unique_keys results text :
  NoDup (map (fun e => name_key (de_name e)) (combine_drug_extractions results text)).
Proof.
  unfold combine_drug_extractions; cbv zeta.
  rewrite FusionFacts.fold_process_results.
  set (all := fold_left record_detection (detections results) []).
  assert (Hc : Forall key_consistent all)
    by (apply FusionFacts.fold_record_consistent; constructor).
  assert (Hn : NoDup (map fst all)) by (apply fold_record_nodup; constructor).
  rewrite map_map.
  erewrite (map_ext_in _ fst); [exact Hn|].
  intros [k st] Hin; rewrite Forall_forall in Hc; exact (Hc _ Hin).
Qed.

(** Every dosage, frequency, route and duration of a combined entity is
    either empty or one of the values the pattern extractor found for
    that attribute; the instructions are always empty. *)
Theorem combine_attributes_from_patterns results text :
  let pd := pattern_data_of results in
  Forall (fun e =>
      (de_dosage e = "" \/ In (de_dosage e) (get_or [] (p_dosages pd))) /\
      (de_frequency e = "" \/ In (de_frequency e) (get_or [] (p_frequencies pd))) /\
      (de_route e = "" \/ In (de_route e) (get_or [] (p_routes pd))) /\
      (de_duration e = "" \/ In (de_duration e) (get_or [] (p_durations pd))) /\
      de_instructions e = "")
    (combine_drug_extractions results text).
Proof.
  intros pd; unfold combine_drug_extractions; cbv zeta.
  apply Forall_forall; intros e He.
  apply in_map_iff in He as [[k st] [<- _]].
  repeat split; first [apply find_closest_match_result | reflexivity].
Qed.

(** A result with none of the keys ['drugs'], ['drug_candidates'] and
    ['results'] and whose method is not ['Pattern Matching'] (the Watson
    NLU result, say) has no effect on the combined drugs. *)
Theorem combine_ignores_keyless_result l1 r l2 text :
  r_drugs r = None -> r_drug_candidates r = None -> r_results r = None ->
  r_method r <> Some "Pattern Matching" ->
  combine_drug_extractions (l1 ++ r :: l2) text = combine_drug_extractions (l1 ++ l2) text.
Proof.
  exact (combine_skip_keyless l1 r l2 text).
Qed.

Lemma combine_ignores_keyless_result_witness :
  let r := {| r_method := Some "Watson NLU"; r_confidence := Some (75 # 100);
              r_drugs := None; r_drug_candidates := None; r_results := None |} in
  let pats := extract_with_patterns
                {| p_drugs := Some ["Amoxicillin"]; p_dosages := Some ["500mg"];
                   p_frequencies := None; p_routes := None; p_durations := None |} in
  combine_drug_extractions ([] ++ r :: [pats])%list "Amoxicillin 500mg"
  = combine_drug_extractions ([] ++ [pats])%list "Amoxicillin 500mg".
Proof.
  intros r pats.
  apply (combine_ignores_keyless_result [] r [pats] "Amoxicillin 500mg");
    [reflexivity | reflexivity | reflexivity | discriminate].
Defined.

(** [extract_medical_entities] never raises: its method is the one of the
    most confident adapter that succeeded (Drug NER, then PubMedBERT, then
    Watson NLU, then BioBERT, else Pattern Matching), and its confidence
    score lies between 0.6 and 0.85. *)
Theorem extraction_method_priority {A} pi di bio pub (wat : option (Exc.outcome A))
    ner pats text :
  exists ex, extract_medical_entities pi di bio pub wat ner pats text = Exc.Return ex /\
    md_extraction_method ex =
      match ner with
      | Some (Exc.Return _) => "Drug NER"
      | _ => match pub with
             | Some (Exc.Return _) => "PubMedBERT"
             | _ => match wat with
                    | Some (Exc.Return _) => "Watson NLU"
                    | _ => match bio with
                           | Some (Exc.Return _) => "BioBERT"
                           | _ => "Pattern Matching"
                           end
                    end
             end
      end /\
    (6 # 10 <= md_confidence_score ex <= 85 # 100)%Q.
Proof.
  pose proof (extract_medical_entities_returns pi di bio pub wat ner pats text) as H.
  destruct (extract_medical_entities pi di bio pub wat ner pats text) as [ex|e];
    [|contradiction].
  destruct H as (_ & Hm & Hc); exists ex; auto.
Qed.

(** Whatever Watson NLU answers, the drugs of [extract_medical_entities]
    are those combined from the other adapters alone. *)
Theorem watson_result_unused_for_drugs {A} pi di bio pub (wat : option (Exc.outcome A))
    ner pats text :
  exists ex, extract_medical_entities pi di bio pub wat ner pats text = Exc.Return ex /\
    md_drugs ex = combine_drug_extractions
      (opt_list (extract_with_biobert bio) ++ opt_list (extract_with_pubmedbert pub)
       ++ opt_list (extract_with_drug_ner ner) ++ [extract_with_patterns pats])%list text.
Proof.
  pose proof (extract_medical_entities_returns pi di bio pub wat ner pats text) as H.
  destruct (extract_medical_entities pi di bio pub wat ner pats text) as [ex|e];
    [|contradiction].
  destruct H as (Hd & _ & _); exists ex; split; [reflexivity|].
  rewrite Hd.
  destruct wat as [[a|e]|]; cbn [extract_with_watson_nlu opt_list app]; try reflexivity.
  rewrite !(app_assoc (opt_list (extract_with_biobert bio))).
  apply combine_skip_keyless; first [reflexivity | discriminate].
Qed.

(** The drug names PubMedBERT hands to the fusion all contain "drug",
    "medication" or "medicine" (any case), and carry its confidence 0.8. *)
Theorem pubmedbert_detections_contain_keyword es :
  exists r, extract_with_pubmedbert (Some (Exc.Return es)) = Some r /\
    Forall (fun d => existsb (fun k => Py.contains k (Py.lower (det_name d)))
                       pubmed_keywords = true
                     /\ det_conf d = (8 # 10)%Q /\ det_method d = "PubMedBERT")
      (result_detections r).
Proof.
  eexists; split; [reflexivity|].
  unfold result_detections; cbn [r_drugs r_method r_confidence get_or].
  apply Forall_map, Forall_forall; intros n Hn.
  apply filter_In in Hn as [Hn _].
  apply in_map_iff in Hn as [d [<- Hd]].
  apply in_map_iff in Hd as [e [<- He]].
  apply filter_In in He as [_ Hkw].
  repeat split; exact Hkw.
Qed.

(** ** nlp_extractor.py *)

(** On a text that is not blank, [extract_drug_info] asks GatorTron first;
    it returns GatorTron's entries that have a name (every returned name is
    non-empty) and runs the rule-based extraction only when there is no
    such entry or the answer carries an error. *)
Theorem extract_drug_info_nonblank q rb text :
  NER.all_space text = false ->
  let result := q text in
  let named := if NER.g_error result then []
               else flat_map NER.standardize (get_or [] (NER.g_drugs result)) in
  Forall (fun d => NER.drug_name d <> "") named /\
  NER.extract_drug_info q rb text =
    match named with
    | [] => ([NER.QueryGatorTron; NER.RuleBasedExtraction], rb text)
    | _ => ([NER.QueryGatorTron], named)
    end.
Proof.
  intros Hs result named.
  assert (Hstrip : String.eqb (Py.strip text) "" = false).
  { apply String.eqb_neq; intros E.
    apply ExtraFacts.strip_empty_all_space in E; congruence. }
  split.
  - unfold named; destruct (NER.g_error result); [constructor|].
    apply Forall_forall; intros d Hd; apply in_flat_map in Hd as [g [_ Hg]].
    destruct g as [dn n ds fr ro|]; [|contradiction].
    unfold NER.standardize in Hg.
    destruct (String.eqb_spec (match dn with Some x => x | None => get_or "" n end) "")
      as [_|Hne]; [contradiction|].
    destruct Hg as [<-|[]]; exact Hne.
  - unfold NER.extract_drug_info; rewrite Hstrip; fold result.
    unfold named; destruct (NER.g_error result); [reflexivity|].
    destruct (NER.g_drugs result) as [l|]; [|reflexivity].
    cbn [negb get_or]; destruct (flat_map NER.standardize l); reflexivity.
Qed.

Lemma extract_drug_info_nonblank_witness :
  let q := fun _ : string =>
    {| NER.g_error := false;
       NER.g_drugs := Some [NER.GDict None (Some "Aspirin") (Some "81mg") None None;
                            NER.GDict (Some "") None None None None; NER.GNotDict] |} in
  let rb := fun _ : string => @nil NER.drug_info in
  NER.all_space "Aspirin 81mg" = false /\
  NER.extract_drug_info q rb "Aspirin 81mg"
  = ([NER.QueryGatorTron],
     [ {| NER.drug_name := "Aspirin"; NER.dosage := "81mg";
          NER.frequency := ""; NER.route := "" |} ]).
Proof.
  intros q rb.
  assert (H : NER.all_space "Aspirin 81mg" = false) by reflexivity.
  split; [exact H|].
  exact (proj2 (extract_drug_info_nonblank q rb "Aspirin 81mg" H)).
Defined.

(** ** ocr_reader.py *)



(** An image whose format is known and is not JPEG, PNG or JPG is refused
    before any OCR engine runs, with a wrapped RuntimeError naming the
    format. *)
Theorem unsupported_format_rejected f p w t :
  f <> "" -> ~ In f ["JPEG"; "PNG"; "JPG"] ->
  OCRFile.extract_text_from_image_file (Some f) p w t
  = ([], Exc.Raise (Exc.RuntimeError ("OCR extraction failed: Unsupported image format: " ++ f))).
Proof.
  intros Hf Hin; unfold OCRFile.extract_text_from_image_file.
  apply String.eqb_neq in Hf; rewrite Hf.
  replace (existsb (String.eqb f) ["JPEG"; "PNG"; "JPG"]) with false.
  - reflexivity.
  - symmetry; apply not_true_iff_false; intros E.
    apply existsb_exists in E as [x [Hx Ex]]; apply String.eqb_eq in Ex; subst x.
    contradiction.
Qed.

Lemma unsupported_format_rejected_witness :
  "GIF" <> "" /\ ~ In "GIF" ["JPEG"; "PNG"; "JPG"] /\
  OCRFile.extract_text_from_image_file (Some "GIF") None (Some "Rx: Amoxicillin 500mg") None
  = ([], Exc.Raise (Exc.RuntimeError ("OCR extraction failed: Unsupported image format: " ++ "GIF"))).
Proof.
  assert (H1 : "GIF" <> "") by discriminate.
  assert (H2 : ~ In "GIF" ["JPEG"; "PNG"; "JPG"])
    by (simpl; intros [E|[E|[E|[]]]]; discriminate).
  split; [exact H1|]; split; [exact H2|].
  exact (unsupported_format_rejected "GIF" None (Some "Rx: Amoxicillin 500mg") None H1 H2).
Defined.
